(** * sage_clean.py: the card-data normaliser [process_card_data]

    A shallow embedding of [process_card_data] (src/sage_clean.py, lines 7-86)
    and of the pandas / Python operations it calls, followed by the properties
    of the normaliser.

    Conventions of the embedding.
    - A Python [str] is a [string]; a character is a code point below 256
      (Latin-1).  On that range [str.strip] removes the characters listed in
      [is_space] and the regular expression class [\d] is ['0'..'9'].
    - A cell of the frame is missing ([NaN]), a text, or a number.  The code
      observes a number only through [str(...)] / [astype(str)], so a numeric
      cell carries that string form.
    - A data frame is its list of column labels and its list of rows; the row
      index is positional everywhere in the source ([reset_index(drop=True)],
      [iloc]) and is not modelled.
    - pandas semantics are those of the object-dtype string representation
      (pandas 1.x / 2.x), where [astype(str)] turns a missing value into the
      text "nan".
    - The two trim counts are natural numbers (the caller reads them with
      [min_value=0]).
    - [try: ... except Exception] around the whole body turns every raised
      exception into "report and return None"; the embedding returns the
      exception instead ([Err]). *)

From Stdlib Require Import String Ascii List Bool Arith PeanoNat Lia DecimalString.
Import ListNotations.
Local Open Scope string_scope.
Local Open Scope list_scope.
Local Open Scope nat_scope.

Set Implicit Arguments.

(** ** Python strings *)

Module Py.

(** [str.isspace] on code points below 256. *)
Definition is_space (c : ascii) : bool :=
  let n := nat_of_ascii c in
  (((9 <=? n) && (n <=? 13)) || ((28 <=? n) && (n <=? 32))
   || (n =? 133) || (n =? 160))%nat.

(** The class [\d] of [re] on code points below 256. *)
Definition is_digit (c : ascii) : bool :=
  let n := nat_of_ascii c in ((48 <=? n) && (n <=? 57))%nat.

Fixpoint lstrip (s : string) : string :=
  match s with
  | EmptyString => EmptyString
  | String c s' => if is_space c then lstrip s' else s
  end.

Fixpoint rstrip (s : string) : string :=
  match s with
  | EmptyString => EmptyString
  | String c s' =>
      match rstrip s' with
      | EmptyString => if is_space c then EmptyString else String c EmptyString
      | r => String c r
      end
  end.

(** [s.strip()] *)
Definition strip (s : string) : string := rstrip (lstrip s).

(** [s.startswith(p)] *)
Definition startswith (s p : string) : bool := String.prefix p s.

(** [sub in s] *)
Fixpoint contains (sub s : string) : bool :=
  String.prefix sub s
  || match s with
     | EmptyString => false
     | String _ s' => contains sub s'
     end.

(** The longest prefix of [s] made of digits. *)
Fixpoint take_digits (s : string) : string :=
  match s with
  | EmptyString => EmptyString
  | String c s' => if is_digit c then String c (take_digits s') else EmptyString
  end.

(** [re.search(r"\d+", s)]: the text of the leftmost match, which is greedy. *)
Fixpoint search_digits (s : string) : option string :=
  match s with
  | EmptyString => None
  | String c s' => if is_digit c then Some (take_digits s) else search_digits s'
  end.

(** [str(n)] for a natural number, as used by the f-string of step 5. *)
Definition str_of_nat (n : nat) : string :=
  NilZero.string_of_uint (Nat.to_uint n).

End Py.

(** ** Cells, frames and the pandas operations used by the source *)

(** A cell: missing, text, or a number given by its string form. *)
Inductive cell : Type :=
| NaN
| Str (s : string)
| Num (repr : string).

Abbreviation row := (list cell) (only parsing).

(** The input of the normaliser: the rows of the parsed report. *)
Abbreviation RawTable := (list (list cell)) (only parsing).

(** A frame: column labels, and rows of one cell per column. *)
Record DataFrame : Type := mkDF {
  columns : list string;
  rows : list row
}.

(** What the body can raise: the [ValueError] of line 22, or another
    exception, named by its class. *)
Inductive error : Type :=
| HeaderNotFound
| Fault (exn : string).

Inductive result (A : Type) : Type :=
| Ok (a : A)
| Err (e : error).
Arguments Err {A} e.

(** [pd.isnull(x)] on a scalar. *)
Definition isnull (c : cell) : bool :=
  match c with NaN => true | _ => false end.

(** [pd.notna(x)] on a scalar. *)
Definition notna (c : cell) : bool := negb (isnull c).

(** [str(x)], and one element of [astype(str)]. *)
Definition astype_str (c : cell) : string :=
  match c with
  | NaN => "nan"
  | Str s => s
  | Num repr => repr
  end.

(** [name in df.columns] *)
Definition has_column (name : string) (cols : list string) : bool :=
  existsb (String.eqb name) cols.

(** Number of columns labelled [name]. *)
Definition label_count (name : string) (cols : list string) : nat :=
  length (filter (String.eqb name) cols).

(** Positional selection by a boolean mask. *)
Fixpoint select (A : Type) (mask : list bool) (l : list A) : list A :=
  match mask, l with
  | b :: mask', x :: l' => if b then x :: select mask' l' else select mask' l'
  | _, _ => []
  end.

(** [df.loc[:, mask]] *)
Definition loc_columns (mask : list bool) (df : DataFrame) : DataFrame :=
  mkDF (select mask (columns df)) (map (select mask) (rows df)).

(** The cells of row [r] that stand under a column labelled [name]. *)
Definition cells_under (name : string) (cols : list string) (r : row) : row :=
  select (map (String.eqb name) cols) r.

(** The cell of row [r] under the leftmost column labelled [name]. *)
Fixpoint cell_at (name : string) (cols : list string) (r : row) : cell :=
  match cols, r with
  | c :: cols', x :: r' => if String.eqb name c then x else cell_at name cols' r'
  | _, _ => NaN
  end.

(** [df[name]] as a Series, for a label that occurs once. *)
Definition series (name : string) (df : DataFrame) : list cell :=
  map (cell_at name (columns df)) (rows df).

(** [Index.duplicated()]: true at every occurrence of a label but the first. *)
Fixpoint duplicated_from (seen cols : list string) : list bool :=
  match cols with
  | [] => []
  | c :: cols' => has_column c seen :: duplicated_from (c :: seen) cols'
  end.

Definition duplicated (cols : list string) : list bool := duplicated_from [] cols.

(** [df.drop(columns=[name], errors="ignore")]: every column with the label. *)
Definition drop_column (name : string) (df : DataFrame) : DataFrame :=
  loc_columns (map (fun c => negb (String.eqb name c)) (columns df)) df.

(** [df.rename(columns={old: new})] *)
Definition rename_column (old new : string) (df : DataFrame) : DataFrame :=
  mkDF (map (fun c => if String.eqb old c then new else c) (columns df)) (rows df).

(** [Series.ffill()] on a column of optional values. *)
Fixpoint ffill_from (A : Type) (last : option A) (l : list (option A)) : list (option A) :=
  match l with
  | [] => []
  | Some v :: l' => Some v :: ffill_from (Some v) l'
  | None :: l' => last :: ffill_from last l'
  end.

Definition ffill (A : Type) (l : list (option A)) : list (option A) :=
  ffill_from None l.

(** [Series.astype(str).str.extract(r"(\d+)")], one element. *)
Definition extract_digits (c : cell) : option string :=
  Py.search_digits (astype_str c).

Definition cell_of_option (o : option string) : cell :=
  match o with Some s => Str s | None => NaN end.

(** The right-hand side of line 67:
    [df["CardHolderName"].astype(str).str.extract(r"(\d+)").ffill()]. *)
Definition card_no_series (cells : list cell) : list cell :=
  map cell_of_option (ffill (map extract_digits cells)).

Fixpoint replace_under (name : string) (cols : list string) (r : row) (v : cell) : row :=
  match cols, r with
  | c :: cols', x :: r' =>
      if String.eqb name c then v :: r' else x :: replace_under name cols' r' v
  | _, _ => r
  end.

(** [df[name] = values], for a label that occurs at most once: the column is
    overwritten in place when it exists and appended otherwise. *)
Definition setitem (name : string) (vals : list cell) (df : DataFrame) : DataFrame :=
  if has_column name (columns df)
  then mkDF (columns df)
            (map (fun rv => replace_under name (columns df) (fst rv) (snd rv))
                 (combine (rows df) vals))
  else mkDF (columns df ++ [name])
            (map (fun rv => fst rv ++ [snd rv]) (combine (rows df) vals)).

(** [df[labels]]: for each label in turn, every column that carries it. *)
Definition getitem_list (labels : list string) (df : DataFrame) : DataFrame :=
  mkDF (flat_map (fun l => select (map (String.eqb l) (columns df)) (columns df)) labels)
       (map (fun r => flat_map (fun l => cells_under l (columns df) r) labels) (rows df)).

(** [df.dropna(subset=subset, how="all")]: a row is kept when at least one of
    its cells under the labels of [subset] is not missing. *)
Definition row_has_value (subset cols : list string) (r : row) : bool :=
  existsb (fun l => existsb notna (cells_under l cols r)) subset.

Definition dropna_all (subset : list string) (df : DataFrame) : DataFrame :=
  mkDF (columns df) (filter (row_has_value subset (columns df)) (rows df)).

(** ** The steps of [process_card_data] *)

(** Step 1 (line 11): [df.iloc[n:]]. *)
Definition remove_top (n : nat) (df : RawTable) : RawTable := skipn n df.

(** Step 2 (lines 14-19). *)
Definition row_has_verified (r : row) : bool :=
  existsb (fun c => Py.contains "Verified" (astype_str c)) r.

Fixpoint first_index (A : Type) (p : A -> bool) (l : list A) : option nat :=
  match l with
  | [] => None
  | x :: l' => if p x then Some 0 else option_map S (first_index p l')
  end.

Definition verified_header_index (df : RawTable) : option nat :=
  first_index row_has_verified (firstn (Nat.min 10 (length df)) df).

(** Step 4 (lines 29-35), one label. *)
Definition clean_column_name (c : cell) : string :=
  if isnull c then "" else Py.strip (astype_str c).

(** Steps 3 and 4 (lines 25-35): the header row gives the labels, the rows
    after it are the data. *)
Definition set_header (h : nat) (df : RawTable) : DataFrame :=
  mkDF (map clean_column_name (nth h df [])) (skipn (S h) df).

(** Step 5 (lines 38-42): [count_empty] is the number of blank labels seen. *)
Fixpoint name_blanks (count_empty : nat) (cols : list string) : list string :=
  match cols with
  | [] => []
  | c :: cols' =>
      if String.eqb c ""
      then ("CardHolderName" ++ Py.str_of_nat (S count_empty))%string
             :: name_blanks (S count_empty) cols'
      else c :: name_blanks count_empty cols'
  end.

Definition rename_blank_columns (df : DataFrame) : DataFrame :=
  mkDF (name_blanks 0 (columns df)) (rows df).

(** Step 6 (line 45). *)
Definition drop_duplicate_columns (df : DataFrame) : DataFrame :=
  loc_columns (map negb (duplicated (columns df))) df.

(** Step 7 (lines 48-49). *)
Definition drop_record_column (df : DataFrame) : DataFrame :=
  if has_column "Record#" (columns df) then drop_column "Record#" df else df.

(** Step 8 (lines 52-63). *)
Definition card_cols (df : DataFrame) : list string :=
  filter (fun c => Py.startswith c "CardHolderName") (columns df).

Definition sample_values (c : string) (df : DataFrame) : list string :=
  firstn 20 (map astype_str (filter notna (series c df))).

Definition has_digits (s : string) : bool :=
  match Py.search_digits s with Some _ => true | None => false end.

Definition chosen_col (df : DataFrame) : option string :=
  find (fun c => existsb has_digits (sample_values c df)) (card_cols df).

Definition drop_other_card_cols (chosen : string) (cands : list string)
    (df : DataFrame) : DataFrame :=
  fold_left (fun d c => if String.eqb c chosen then d else drop_column c d) cands df.

Definition identify_card_column (df : DataFrame) : DataFrame :=
  match chosen_col df with
  | None => df
  | Some chosen =>
      drop_other_card_cols chosen (card_cols df)
        (rename_column chosen "CardHolderName" df)
  end.

(** Step 9 (lines 66-68).  [df["CardHolderName"]] is a frame, which has no
    [.str], when the label occurs more than once; assigning a one-column frame
    under a label that occurs more than once is refused as well. *)
Definition extract_card_no (df : DataFrame) : result DataFrame :=
  if has_column "CardHolderName" (columns df) then
    if (1 <? label_count "CardHolderName" (columns df))%nat
    then Err (Fault "AttributeError")
    else if (1 <? label_count "Card No." (columns df))%nat
    then Err (Fault "ValueError")
    else Ok (drop_column "CardHolderName"
               (setitem "Card No." (card_no_series (series "CardHolderName" df)) df))
  else Ok df.

(** Step 10 (lines 71-73). *)
Definition desired_cols : list string :=
  ["Card No."; "Verified"; "Date"; "Payee"; "Charges"].

Definition existing_cols (df : DataFrame) : list string :=
  filter (fun c => has_column c (columns df)) desired_cols.

Definition keep_final_columns (df : DataFrame) : DataFrame :=
  getitem_list (existing_cols df) df.

(** Step 11 (lines 76-77); [existing] is the list [existing_cols] of
    step 10. *)
Definition check_cols (existing : list string) : list string :=
  filter (fun c => negb (String.eqb c "Card No.")) existing.

Definition drop_empty_rows (existing : list string) (df : DataFrame) : DataFrame :=
  dropna_all (check_cols existing) df.

(** Step 12 (lines 80-81): [df.iloc[:-n]]. *)
Definition remove_bottom (n : nat) (df : DataFrame) : DataFrame :=
  if ((0 <? n) && (n <=? length (rows df)))%nat
  then mkDF (columns df) (firstn (length (rows df) - n) (rows df))
  else df.

(** Steps 3 to 7, from the header index found by step 2. *)
Definition install_header (h : nat) (df : RawTable) : DataFrame :=
  drop_record_column
    (drop_duplicate_columns (rename_blank_columns (set_header h df))).

(** Steps 10 to 12. *)
Definition finish (rows_to_delete_bottom : nat) (df : DataFrame) : DataFrame :=
  remove_bottom rows_to_delete_bottom
    (drop_empty_rows (existing_cols df) (keep_final_columns df)).

(** [process_card_data(df, rows_to_delete_top, rows_to_delete_bottom)] *)
Definition process_card_data (df : RawTable)
    (rows_to_delete_top rows_to_delete_bottom : nat) : result DataFrame :=
  let df1 := remove_top rows_to_delete_top df in
  match verified_header_index df1 with
  | None => Err HeaderNotFound
  | Some h =>
      match extract_card_no (identify_card_column (install_header h df1)) with
      | Err e => Err e
      | Ok df9 => Ok (finish rows_to_delete_bottom df9)
      end
  end.

(** ** The caller: the "Process Data" button and [download_csv] *)

(** The calls the script makes on the page, in order.  [st.error] is kept
    with the exception it formats
    ([f"Error during data processing: {e}"]). *)
Inductive st_call : Type :=
| st_spinner (text : string)
| st_error (e : error)
| st_write (text : string)
| st_dataframe (df : DataFrame)
| st_download_button (label data file_name mime : string).

Section App.

(** [df.to_csv(index=False, encoding='utf-8')], pandas' serialiser. *)
Variable to_csv : DataFrame -> string.

(** [download_csv(df)] (lines 88-98); [None] is the [None] of Python. *)
Definition download_csv (df : option DataFrame) : list st_call :=
  match df with
  | Some d =>
      [st_download_button "Download Cleaned CSV" (to_csv d)
                          "cleaned_card_data.csv" "text/csv"]
  | None => []
  end.

(** [process_card_data] as the caller sees it (lines 9, 83-86): the table,
    or the error reported on the page and [None]. *)
Definition process_card_data_reporting (df : RawTable)
    (rows_to_delete_top rows_to_delete_bottom : nat)
    : list st_call * option DataFrame :=
  match process_card_data df rows_to_delete_top rows_to_delete_bottom with
  | Ok out => ([], Some out)
  | Err e => ([st_error e], None)
  end.

(** The body of [if st.button("Process Data"):] (lines 138-144). *)
Definition process_data_clicked (df : RawTable)
    (num_rows_top num_rows_bottom : nat) : list st_call :=
  let (reported, cleaned_df) :=
    process_card_data_reporting df num_rows_top num_rows_bottom in
  st_spinner "Processing data..." :: reported
  ++ match cleaned_df with
     | Some d =>
         st_write "### Cleaned Data Preview:" :: st_dataframe d
         :: download_csv (Some d)
     | None => []
     end.

End App.

(** The report of the end-to-end scenario, with two leading rows [r0], [r1]. *)
Definition scenario (r0 r1 : row) : RawTable :=
  [ r0; r1;
    [Str ""; Str "Verified"; Str "Date"; Str "Payee"; Str "Charges"; Str "Record#"];
    [Str "CH001 - John"; Str "Y"; Str "2024-01-01"; Str "Store"; Str "10.00"; Str "1"];
    [Str ""; Str "Y"; Str "2024-01-02"; Str "Store2"; Str "20.00"; Str "2"] ].

Definition scenario_output : DataFrame :=
  mkDF ["Card No."; "Verified"; "Date"; "Payee"; "Charges"]
       [ [Str "001"; Str "Y"; Str "2024-01-01"; Str "Store"; Str "10.00"];
         [Str "001"; Str "Y"; Str "2024-01-02"; Str "Store2"; Str "20.00"] ].

Unset Implicit Arguments.

(** ** Specification-side notions *)

(** [sub] occurs in [s] as a substring. *)
Definition occurs_in (sub s : string) : Prop :=
  exists pre post : string, s = (pre ++ sub ++ post)%string.

(** Some cell of the row, in string form, contains "Verified". *)
Definition mentions_verified (r : row) : Prop :=
  exists c, In c r /\ occurs_in "Verified" (astype_str c).

(** [l1] is [l2] with some elements left out, the order being kept. *)
Inductive subseq {A : Type} : list A -> list A -> Prop :=
| subseq_nil : subseq [] []
| subseq_skip x l1 l2 : subseq l1 l2 -> subseq l1 (x :: l2)
| subseq_keep x l1 l2 : subseq l1 l2 -> subseq (x :: l1) (x :: l2).

(** No column whose name starts with "CardHolderName" has a digit sequence
    among its first 20 non-null values in string form. *)
Definition no_candidate (df : DataFrame) : Prop :=
  forall c, In c (columns df) -> Py.startswith c "CardHolderName" = true ->
  forall v, In v (sample_values c df) -> Py.search_digits v = None.

(** Every character of [s] satisfies [p]. *)
Fixpoint all_chars (p : ascii -> bool) (s : string) : bool :=
  match s with
  | EmptyString => true
  | String c s' => p c && all_chars p s'
  end.

(** [s] contains no digit. *)
Definition no_digit (s : string) : Prop :=
  all_chars (fun c => negb (Py.is_digit c)) s = true.

(** [s] does not start with a digit. *)
Definition stops_digits (s : string) : Prop :=
  match s with
  | EmptyString => True
  | String c _ => Py.is_digit c = false
  end.

(** [d] is the first contiguous run of digits of [s]: no digit before it, at
    least one digit in it, and no digit right after it. *)
Definition first_digit_run (s d : string) : Prop :=
  exists pre post : string,
    s = (pre ++ d ++ post)%string /\
    no_digit pre /\
    d <> EmptyString /\
    all_chars Py.is_digit d = true /\
    stops_digits post.

(** [v] is what position [i] of [l] inherits: the nearest value at or before
    [i] that is not missing, or nothing when every value up to [i] is
    missing. *)
Definition nearest_preceding {A : Type} (l : list (option A)) (i : nat)
    (v : option A) : Prop :=
  match v with
  | Some x =>
      exists j, j <= i /\ nth j l None = Some x /\
                forall k, j < k <= i -> nth k l None = None
  | None => forall k, k <= i -> nth k l None = None
  end.

(** Every row has one cell per column. *)
Definition rectangular (df : DataFrame) : Prop :=
  Forall (fun r => length r = length (columns df)) (rows df).

(** The columns the empty-row filter looks at. *)
Definition check_names : list string := ["Verified"; "Date"; "Payee"; "Charges"].

(** All rows of the report have the same number of cells. *)
Definition rectangular_table (t : RawTable) : Prop :=
  forall r r', In r t -> In r' t -> length r = length r'.

(** [x] is one of the candidates that lines 61-63 drop: a candidate other
    than the chosen one. *)
Definition other_card_col (chosen : string) (cands : list string) (x : string) : bool :=
  existsb (fun c => negb (String.eqb c chosen) && String.eqb c x) cands.

(** A "Card No." cell as step 9 writes it: missing, or a non-empty string
    of digits. *)
Definition card_number (c : cell) : Prop :=
  c = NaN \/
  exists d : string, c = Str d /\ d <> EmptyString /\ all_chars Py.is_digit d = true.

(** The labels of [cols] in the order of their first occurrence: position
    [i] is kept when no position before [i] carries the same label. *)
Definition first_occurrence_positions (cols : list string) : list nat :=
  filter (fun i => negb (has_column (nth i cols EmptyString) (firstn i cols)))
         (seq 0 (length cols)).

(** ** Reports and frames used as examples *)

(** A report whose only mention of "verified" is in lower case. *)
Definition lowercase_report : RawTable :=
  [ [Str "verified"; Str "Date"]; [Str "Y"; Str "2024-01-01"] ].

(** A header row followed by one data row. *)
Definition two_row_report : RawTable :=
  [ [Str "Verified"; Str "Date"]; [Str "Y"; Str "2024-01-01"] ].

(** The frame left by step 10 for the report
    [["", "Verified by"], ["CH001", "Y"]]: only "Card No." is kept. *)
Definition card_only_frame : DataFrame := mkDF ["Card No."] [[Str "001"]].

(** A report whose header names a column "CardHolderName"; the column has
    no digit. *)
Definition literal_name_report : RawTable :=
  [ [Str "CardHolderName"; Str "Verified"]; [Str "Bob"; Str "Y"] ].

(** A report whose blank-named column has no digit. *)
Definition no_digit_report : RawTable :=
  [ [Str ""; Str "Verified"]; [Str "Bob"; Str "Y"] ].

(** A frame as it enters step 9, with the identifier cells
    [null, "12", null, "34"]. *)
Definition identifier_frame : DataFrame :=
  mkDF ["CardHolderName"; "Verified"]
       [ [NaN; Str "Y"]; [Str "12"; Str "Y"]; [NaN; Str "Y"]; [Str "34"; Str "Y"] ].

(** A table with a card number and nothing else in its second data row, and
    only an amount in its third. *)
Definition sparse_report : RawTable :=
  [ [NaN; Str "Verified"; Str "Date"; Str "Payee"; Str "Charges"];
    [Str "CH001"; Str "Y"; Str "2024-01-01"; Str "Store"; Str "10.00"];
    [Str "CH002"; NaN; NaN; NaN; NaN];
    [NaN; NaN; NaN; NaN; Str "5.00"] ].

(** A frame as it leaves step 7, with one blank-named column that has
    digits. *)
Definition selected_frame : DataFrame :=
  mkDF ["CardHolderName1"; "Verified"]
       [ [Str "CH001 - John"; Str "Y"]; [NaN; Str "Y"] ].

(** A frame as it leaves step 7 when the header names a column
    "CardHolderName" and has a blank column with digits. *)
Definition clash_frame : DataFrame :=
  mkDF ["CardHolderName"; "CardHolderName1"; "Verified"]
       [ [Str "Bob"; Str "CH12"; Str "Y"] ].

(** The scenario with a title row and an empty row above the header. *)
Definition titled_scenario : RawTable :=
  scenario [Str "Card report"; NaN; NaN; NaN; NaN; NaN]
           [NaN; NaN; NaN; NaN; NaN; NaN].

(** A report whose header names a column "CardHolderName" and has a blank
    column with the identifier cells [null, "12", null, "34"]. *)
Definition clash_report : RawTable :=
  [ [Str "CardHolderName"; NaN; Str "Verified"];
    [Str "Bob"; NaN; Str "Y"];
    [Str "Bob"; Str "12"; Str "Y"];
    [Str "Bob"; NaN; Str "Y"];
    [Str "Bob"; Str "34"; Str "Y"] ].

(** A frame with the label "Date" on two columns. *)
Definition twice_dated_frame : DataFrame :=
  mkDF ["Date"; "Payee"; "Date"]
       [ [Str "2024-01-01"; Str "Store"; Str "2024-02-02"] ].

(** * Properties *)

Ltac check_cases H :=
  unfold check_names in H; simpl in H;
  destruct H as [H|[H|[H|[H|[]]]]]; subst.

(** ** Strings *)

Lemma prefix_occurs (p s : string) :
  String.prefix p s = true <-> exists post : string, s = (p ++ post)%string.
Proof.
  revert s; induction p as [|a p IH]; intros s; simpl.
  - split; [intros _; now exists s | intros _; now destruct s].
  - destruct s as [|b s]; simpl.
    + split; [discriminate | intros [post H]; discriminate].
    + destruct (Ascii.ascii_dec a b) as [->|Hab].
      * rewrite IH. split; intros [post H]; exists post.
        -- now rewrite H.
        -- now inversion H.
      * split; [discriminate | intros [post H]; inversion H; subst; contradiction].
Qed.

Lemma contains_occurs (sub s : string) :
  Py.contains sub s = true <-> occurs_in sub s.
Proof.
  unfold occurs_in. induction s as [|a s IH].
  - cbn [Py.contains]. rewrite orb_false_r, prefix_occurs. split.
    + intros [post H]. now exists EmptyString, post.
    + intros [pre [post H]]. destruct pre; simpl in H; [now exists post | discriminate].
  - cbn [Py.contains]. rewrite orb_true_iff, prefix_occurs, IH. split.
    + intros [[post H] | [pre [post H]]].
      * now exists EmptyString, post.
      * exists (String a pre), post. simpl. now rewrite H.
    + intros [pre [post H]]. destruct pre as [|b pre]; simpl in H.
      * left. now exists post.
      * right. inversion H. now exists pre, post.
Qed.

Lemma row_has_verified_iff (r : row) :
  row_has_verified r = true <-> mentions_verified r.
Proof.
  unfold row_has_verified, mentions_verified. rewrite existsb_exists.
  split; intros [c [Hin H]]; exists c; split; auto; now apply contains_occurs.
Qed.

Lemma row_has_verified_false (r : row) :
  row_has_verified r = false <-> ~ mentions_verified r.
Proof.
  rewrite <- row_has_verified_iff. destruct (row_has_verified r); split; intros; congruence.
Qed.

(** ** Header detection *)

Lemma first_index_none {A : Type} (p : A -> bool) (l : list A) :
  first_index p l = None <-> forall x, In x l -> p x = false.
Proof.
  induction l as [|x l IH]; simpl.
  - split; [intros _ y [] | reflexivity].
  - destruct (p x) eqn:Hx.
    + split; [discriminate | intros H; specialize (H x (or_introl eq_refl)); congruence].
    + destruct (first_index p l); simpl.
      * split; [discriminate|]. intros H.
        assert (Some n = None) by (apply IH; intros y Hy; apply H; now right). discriminate.
      * split; [|reflexivity]. intros _ y [<-|Hy]; [assumption|].
        now apply (proj1 IH).
Qed.

Lemma first_index_some {A : Type} (p : A -> bool) (l : list A) (h : nat) :
  first_index p l = Some h ->
  h < length l /\
  (forall d, p (nth h l d) = true) /\
  (forall i d, i < h -> p (nth i l d) = false).
Proof.
  revert h; induction l as [|x l IH]; intros h; simpl; [discriminate|].
  destruct (p x) eqn:Hx.
  - intros [= <-]. repeat split; [lia | auto | intros; lia].
  - destruct (first_index p l) as [k|]; simpl; [|discriminate].
    intros [= <-]. destruct (IH k eq_refl) as [Hk [Hp Hlt]].
    repeat split; [lia | auto |].
    intros [|i] d Hi; [assumption | apply Hlt; lia].
Qed.

Lemma header_window (df : RawTable) (i : nat) :
  i < Nat.min 10 (length df) ->
  nth i (firstn (Nat.min 10 (length df)) df) [] = nth i df [].
Proof.
  intros Hi. rewrite nth_firstn.
  destruct (i <? Nat.min 10 (length df)) eqn:E; [reflexivity|].
  apply Nat.ltb_ge in E. lia.
Qed.

Lemma header_found (df : RawTable) :
  (exists i, i < Nat.min 10 (length df) /\ mentions_verified (nth i df [])) ->
  exists h, verified_header_index df = Some h /\ h < Nat.min 10 (length df).
Proof.
  intros [i [Hi Hv]]. unfold verified_header_index.
  destruct (first_index row_has_verified (firstn (Nat.min 10 (length df)) df)) as [h|] eqn:E.
  - exists h. split; [reflexivity|].
    apply first_index_some in E. destruct E as [Hh _].
    rewrite length_firstn in Hh. lia.
  - exfalso. rewrite first_index_none in E.
    apply row_has_verified_iff in Hv.
    rewrite <- (header_window df i Hi) in Hv.
    rewrite E in Hv; [discriminate|].
    apply nth_In. rewrite length_firstn. lia.
Qed.

Lemma header_missing (df : RawTable) :
  (forall i, i < Nat.min 10 (length df) -> ~ mentions_verified (nth i df [])) ->
  verified_header_index df = None.
Proof.
  intros H. unfold verified_header_index. apply first_index_none.
  intros r Hr. apply (In_nth _ _ []) in Hr. destruct Hr as [i [Hi <-]].
  rewrite length_firstn in Hi.
  assert (Hi' : i < Nat.min 10 (length df)) by lia.
  rewrite (header_window df i Hi'). apply row_has_verified_false. now apply H.
Qed.

(** ** The end-to-end scenario *)

(** C1: on the report whose row 2 is the header
    ["", "Verified", "Date", "Payee", "Charges", "Record#"], followed by the two
    data rows of the scenario, with no trimming, the normaliser succeeds; the
    columns are "Card No.", "Verified", "Date", "Payee", "Charges" in that
    order, both rows carry the card number "001" (extracted in the first row,
    forward-filled in the second), "Record#" is gone and every other cell is
    the cell of the input.  The two rows before the header are arbitrary rows
    that do not mention "Verified". *)
Theorem scenario_end_to_end (r0 r1 : row) :
  ~ mentions_verified r0 -> ~ mentions_verified r1 ->
  process_card_data (scenario r0 r1) 0 0 = Ok scenario_output /\
  columns scenario_output = ["Card No."; "Verified"; "Date"; "Payee"; "Charges"] /\
  series "Card No." scenario_output = [Str "001"; Str "001"] /\
  has_column "Record#" (columns scenario_output) = false.
Proof.
  intros H0 H1.
  assert (E : verified_header_index (scenario r0 r1) = Some 2).
  { unfold verified_header_index, scenario.
    cbn [length Nat.min firstn first_index].
    rewrite (proj2 (row_has_verified_false r0) H0).
    rewrite (proj2 (row_has_verified_false r1) H1).
    reflexivity. }
  split; [|repeat split].
  unfold process_card_data, remove_top. cbn [skipn]. rewrite E.
  vm_compute. reflexivity.
Qed.

Lemma scenario_end_to_end_witness :
  process_card_data
    (scenario [Str "Card report"; NaN; NaN; NaN; NaN; NaN] [NaN; NaN; NaN; NaN; NaN; NaN])
    0 0 = Ok scenario_output.
Proof.
  refine (proj1 (scenario_end_to_end
                   [Str "Card report"; NaN; NaN; NaN; NaN; NaN]
                   [NaN; NaN; NaN; NaN; NaN; NaN] _ _));
    apply row_has_verified_false; reflexivity.
Defined.

(** ** Header detection failures *)

(** C3: when, after the top trim, none of the first [min 10 rowCount] rows has
    a cell whose string form contains "Verified", the normaliser produces no
    table and fails with [HeaderNotFound]. *)
Theorem header_not_found (df : RawTable) (top bottom : nat) :
  (forall i, i < Nat.min 10 (length (remove_top top df)) ->
             ~ mentions_verified (nth i (remove_top top df) [])) ->
  process_card_data df top bottom = Err HeaderNotFound.
Proof.
  intros H. unfold process_card_data.
  now rewrite (header_missing _ H).
Qed.

Lemma header_not_found_witness :
  process_card_data lowercase_report 0 0 = Err HeaderNotFound.
Proof.
  apply (header_not_found lowercase_report 0 0).
  intros i Hi. apply row_has_verified_false.
  destruct i as [|[|i]]; [reflexivity | reflexivity | simpl in Hi; lia].
Defined.

(** C4, as stated, fails: trimming three rows off a two-row report does not
    give an empty table, it gives [HeaderNotFound]. *)
Lemma trim_past_end_is_an_error :
  length two_row_report < 3 /\
  process_card_data two_row_report 3 0 = Err HeaderNotFound /\
  ~ (exists out, process_card_data two_row_report 3 0 = Ok out /\ rows out = []).
Proof.
  split; [simpl; lia|]. split; [reflexivity|].
  intros [out [H _]]. vm_compute in H. discriminate.
Qed.

(** C4, amended: when [trimTop] exceeds the row count, the top trim leaves an
    empty table, which is not an error of that step; the header scan then has
    no row to look at and the normaliser fails with [HeaderNotFound]. *)
Theorem trim_past_end (df : RawTable) (top bottom : nat) :
  length df < top ->
  remove_top top df = [] /\
  process_card_data df top bottom = Err HeaderNotFound.
Proof.
  intros H.
  assert (E : remove_top top df = []) by (apply skipn_all2; lia).
  split; [assumption|].
  unfold process_card_data. now rewrite E.
Qed.

Lemma trim_past_end_witness :
  remove_top 3 two_row_report = [] /\
  process_card_data two_row_report 3 0 = Err HeaderNotFound.
Proof.
  apply (trim_past_end two_row_report 3 0). simpl. lia.
Defined.

(** ** Bottom trim *)

(** C9: the bottom trim never changes the columns; when [0 < n] and the frame
    has at least [n] rows, exactly the last [n] rows are dropped; in every
    other case, in particular when [n] exceeds the row count, the frame is
    returned as it is. *)
Theorem bottom_trim (df : DataFrame) (n : nat) :
  columns (remove_bottom n df) = columns df /\
  (0 < n -> n <= length (rows df) ->
   exists dropped,
     length dropped = n /\ rows df = rows (remove_bottom n df) ++ dropped) /\
  (n = 0 \/ length (rows df) < n -> remove_bottom n df = df).
Proof.
  unfold remove_bottom. repeat split.
  - now destruct ((0 <? n) && (n <=? length (rows df))).
  - intros Hn Hle.
    assert (E : (0 <? n) && (n <=? length (rows df)) = true).
    { apply andb_true_iff. split; [now apply Nat.ltb_lt | now apply Nat.leb_le]. }
    rewrite E. simpl.
    exists (skipn (length (rows df) - n) (rows df)). split.
    + rewrite length_skipn. lia.
    + now rewrite firstn_skipn.
  - intros H.
    assert (E : (0 <? n) && (n <=? length (rows df)) = false).
    { apply andb_false_iff. destruct H as [-> | H]; [now left | right].
      apply Nat.leb_gt. exact H. }
    now rewrite E.
Qed.

Lemma bottom_trim_witness :
  (exists dropped,
     length dropped = 1 /\
     rows scenario_output = rows (remove_bottom 1 scenario_output) ++ dropped) /\
  remove_bottom 3 scenario_output = scenario_output.
Proof.
  destruct (bottom_trim scenario_output 1) as [_ [H _]].
  destruct (bottom_trim scenario_output 3) as [_ [_ K]].
  split.
  - apply H; simpl; lia.
  - apply K. right. simpl. lia.
Defined.

(** ** Empty-row filter with nothing to check *)

Example card_only_frame_arises :
  exists df9,
    extract_card_no
      (identify_card_column
         (install_header 0 [[Str ""; Str "Verified by"]; [Str "CH001"; Str "Y"]]))
    = Ok df9 /\
    existing_cols df9 = ["Card No."]%string /\
    keep_final_columns df9 = card_only_frame.
Proof. eexists. split; [|split]; reflexivity. Qed.

(** C7, as stated, fails: with "Card No." as the only kept column there is
    nothing to check, and the filter drops the row instead of passing it. *)
Lemma empty_check_drops_rows :
  check_cols ["Card No."] = [] /\
  rows (drop_empty_rows ["Card No."] card_only_frame) = [] /\
  rows (drop_empty_rows ["Card No."] card_only_frame) <> rows card_only_frame.
Proof.
  split; [reflexivity|]. split; [reflexivity|]. discriminate.
Qed.

Lemma filter_none {A : Type} (p : A -> bool) (l : list A) :
  (forall x, In x l -> p x = false) -> filter p l = [].
Proof.
  induction l as [|x l IH]; intros H; simpl; [reflexivity|].
  rewrite (H x (or_introl eq_refl)). apply IH. intros y Hy. apply H. now right.
Qed.

(** C7, amended: when [checkCols] is empty, every row has all of its (zero)
    checked cells missing, so the filter keeps the columns and drops every
    row. *)
Theorem empty_check_drops_all (existing : list string) (df : DataFrame) :
  check_cols existing = [] ->
  drop_empty_rows existing df = mkDF (columns df) [].
Proof.
  intros H. unfold drop_empty_rows, dropna_all. rewrite H. f_equal.
  apply filter_none. reflexivity.
Qed.

Lemma empty_check_drops_all_witness :
  drop_empty_rows ["Card No."] card_only_frame = mkDF ["Card No."] [].
Proof.
  apply (empty_check_drops_all ["Card No."] card_only_frame). reflexivity.
Defined.

(** ** Column labels through the steps *)

Section Labels.

Local Abbreviation CHN := "CardHolderName"%string.

Lemma has_column_In (name : string) (cols : list string) :
  has_column name cols = true <-> In name cols.
Proof.
  unfold has_column. rewrite existsb_exists. split.
  - intros [x [Hx E]]. apply String.eqb_eq in E. now subst.
  - intros H. exists name. split; [assumption | apply String.eqb_refl].
Qed.

Lemma has_column_not_In (name : string) (cols : list string) :
  has_column name cols = false <-> ~ In name cols.
Proof.
  rewrite <- has_column_In. destruct (has_column name cols); split; congruence.
Qed.

Lemma select_map_filter {A : Type} (p : A -> bool) (l : list A) :
  select (map p l) l = filter p l.
Proof.
  induction l as [|x l IH]; simpl; [reflexivity|].
  destruct (p x); now rewrite IH.
Qed.

Lemma filter_twice {A : Type} (p q : A -> bool) (l : list A) :
  filter p (filter q l) = filter (fun x => q x && p x) l.
Proof.
  induction l as [|x l IH]; simpl; [reflexivity|].
  destruct (q x); simpl; [destruct (p x)|]; now rewrite IH.
Qed.

Lemma filter_only {A : Type} (p : A -> bool) (l : list A) :
  (forall x, In x l -> p x = true) -> filter p l = l.
Proof.
  induction l as [|x l IH]; intros H; simpl; [reflexivity|].
  rewrite (H x (or_introl eq_refl)). f_equal. apply IH. intros y Hy. apply H. now right.
Qed.

Lemma columns_drop_column (name : string) (df : DataFrame) :
  columns (drop_column name df)
  = filter (fun c => negb (String.eqb name c)) (columns df).
Proof. unfold drop_column, loc_columns. simpl. apply select_map_filter. Qed.

(** Step 6 leaves each label once. *)
Lemma dedup_NoDup (seen cols : list string) :
  NoDup (select (map negb (duplicated_from seen cols)) cols) /\
  forall x, In x (select (map negb (duplicated_from seen cols)) cols) -> ~ In x seen.
Proof.
  revert seen; induction cols as [|c cols IH]; intros seen; simpl.
  - split; [constructor | intros x []].
  - destruct (IH (c :: seen)) as [Hnd Hseen].
    destruct (has_column c seen) eqn:E; simpl.
    + split; [assumption|]. intros x Hx Hin. apply (Hseen x Hx). now right.
    + apply has_column_not_In in E. split.
      * constructor; [|assumption]. intros Hc. apply (Hseen c Hc). now left.
      * intros x [<-|Hx]; [assumption|]. intros Hin. apply (Hseen x Hx). now right.
Qed.

Lemma install_header_NoDup (h : nat) (df : RawTable) :
  NoDup (columns (install_header h df)).
Proof.
  unfold install_header, drop_record_column.
  set (d := drop_duplicate_columns _).
  assert (H : NoDup (columns d)) by (apply (dedup_NoDup [])).
  destruct (has_column "Record#" (columns d)); [|assumption].
  rewrite columns_drop_column. now apply NoDup_filter.
Qed.

Lemma columns_drop_other_card_cols (chosen : string) (cands : list string)
    (df : DataFrame) :
  columns (drop_other_card_cols chosen cands df)
  = filter (fun x => negb (other_card_col chosen cands x)) (columns df).
Proof.
  unfold drop_other_card_cols.
  revert df; induction cands as [|c cands IH]; intros df; cbn [fold_left].
  - symmetry. now apply filter_only.
  - rewrite IH. unfold other_card_col. cbn [existsb].
    destruct (String.eqb c chosen); cbn [negb andb orb].
    + reflexivity.
    + rewrite columns_drop_column, filter_twice. apply filter_ext.
      intros x. now rewrite negb_orb.
Qed.

Lemma NoDup_filter_map (ren : string -> string) (keep : string -> bool)
    (l : list string) :
  NoDup l ->
  (forall a b, In a l -> In b l -> a <> b -> ren a = ren b -> keep (ren a) = false) ->
  NoDup (filter keep (map ren l)).
Proof.
  induction l as [|a l IH]; intros Hnd H; simpl; [constructor|].
  inversion Hnd as [|? ? Ha Hl]; subst.
  assert (IH' : NoDup (filter keep (map ren l))).
  { apply IH; [assumption|]. intros x y Hx Hy. apply H; now right. }
  destruct (keep (ren a)) eqn:K; [|assumption].
  constructor; [|assumption].
  intros Hin. apply filter_In in Hin. destruct Hin as [Hin _].
  apply in_map_iff in Hin. destruct Hin as [b [Eb Hb]].
  assert (Hab : a <> b) by (intros ->; contradiction).
  rewrite (H a b (or_introl eq_refl) (or_intror Hb) Hab (eq_sym Eb)) in K.
  discriminate.
Qed.

Lemma chosen_col_is_card_col (df : DataFrame) (chosen : string) :
  chosen_col df = Some chosen ->
  In chosen (columns df) /\ Py.startswith chosen CHN = true.
Proof.
  unfold chosen_col, card_cols. intros H. apply find_some in H.
  destruct H as [H _]. now apply filter_In in H.
Qed.

(** Step 8 leaves each label once, also when the chosen column is renamed to
    a label that another column already carries: that column is a candidate
    too, and dropping it by label removes both. *)
Lemma identify_card_column_NoDup (df : DataFrame) :
  NoDup (columns df) -> NoDup (columns (identify_card_column df)).
Proof.
  intros Hnd. unfold identify_card_column.
  destruct (chosen_col df) as [chosen|] eqn:E; [|assumption].
  rewrite columns_drop_other_card_cols. unfold rename_column. simpl.
  apply NoDup_filter_map; [assumption|].
  intros a b Ha Hb Hab Hren.
  assert (Hc : String.eqb chosen a = true \/ String.eqb chosen b = true).
  { destruct (String.eqb chosen a) eqn:Ea; [now left|].
    destruct (String.eqb chosen b) eqn:Eb; [now right|]. congruence. }
  assert (Hother : exists x, In x (columns df) /\ x = CHN /\ x <> chosen).
  { destruct Hc as [Ea|Eb].
    - rewrite Ea in Hren. apply String.eqb_eq in Ea. subst a.
      destruct (String.eqb chosen b) eqn:Eb.
      + apply String.eqb_eq in Eb. congruence.
      + exists b. repeat split; [assumption | now symmetry | congruence].
    - rewrite Eb in Hren. apply String.eqb_eq in Eb. subst b.
      destruct (String.eqb chosen a) eqn:Ea.
      + apply String.eqb_eq in Ea. congruence.
      + exists a. repeat split; [assumption | assumption | congruence]. }
  destruct Hother as [x [Hx [-> Hne]]].
  assert (R : (if String.eqb chosen a then CHN else a) = CHN).
  { destruct Hc as [Ea|Eb]; [now rewrite Ea|].
    rewrite Eb in Hren. destruct (String.eqb chosen a); congruence. }
  rewrite R. apply negb_false_iff. unfold other_card_col. apply existsb_exists.
  exists CHN. split.
  - unfold card_cols. apply filter_In. split; [assumption | reflexivity].
  - apply andb_true_iff. split; [|apply String.eqb_refl].
    apply negb_true_iff. now apply String.eqb_neq.
Qed.

Lemma label_count_NoDup (name : string) (cols : list string) :
  NoDup cols -> label_count name cols <= 1.
Proof.
  unfold label_count. induction cols as [|c cols IH]; intros H; simpl; [lia|].
  inversion H as [|? ? Hc Hnd]; subst.
  destruct (String.eqb name c) eqn:E; [|now apply IH].
  apply String.eqb_eq in E. subst c. simpl.
  rewrite filter_none; [simpl; lia|].
  intros x Hx. apply String.eqb_neq. congruence.
Qed.

Lemma columns_setitem (name : string) (vals : list cell) (df : DataFrame) :
  columns (setitem name vals df)
  = if has_column name (columns df) then columns df else columns df ++ [name].
Proof. unfold setitem. now destruct (has_column name (columns df)). Qed.

(** Step 9 raises nothing on a frame whose labels are unique. *)
Lemma extract_card_no_ok (df : DataFrame) :
  NoDup (columns df) ->
  exists df9, extract_card_no df = Ok df9 /\ NoDup (columns df9).
Proof.
  intros Hnd. unfold extract_card_no.
  destruct (has_column CHN (columns df)); [|now exists df].
  assert (H1 : (1 <? label_count CHN (columns df)) = false).
  { apply Nat.ltb_ge. now apply label_count_NoDup. }
  assert (H2 : (1 <? label_count "Card No." (columns df)) = false).
  { apply Nat.ltb_ge. now apply label_count_NoDup. }
  rewrite H1, H2. eexists. split; [reflexivity|].
  rewrite columns_drop_column. apply NoDup_filter. rewrite columns_setitem.
  destruct (has_column "Card No." (columns df)) eqn:E; [assumption|].
  apply has_column_not_In in E.
  apply NoDup_app; [assumption | repeat constructor; intros [] |].
  intros x Hx [<-|[]]. contradiction.
Qed.

End Labels.

(** ** Projection on the final columns *)

Lemma filter_eqb_NoDup (l : string) (cols : list string) :
  NoDup cols -> In l cols -> filter (String.eqb l) cols = [l].
Proof.
  induction cols as [|c cols IH]; intros Hnd Hin; [destruct Hin|].
  inversion Hnd as [|? ? Hc Hnd']; subst. simpl.
  destruct (String.eqb l c) eqn:E.
  - apply String.eqb_eq in E. subst c. f_equal.
    apply filter_none. intros x Hx. apply String.eqb_neq. congruence.
  - apply String.eqb_neq in E. destruct Hin as [->|Hin]; [congruence|].
    now apply IH.
Qed.

Lemma flat_map_singletons {A : Type} (f : A -> list A) (l : list A) :
  (forall x, In x l -> f x = [x]) -> flat_map f l = l.
Proof.
  induction l as [|x l IH]; intros H; simpl; [reflexivity|].
  rewrite (H x (or_introl eq_refl)). simpl. f_equal.
  apply IH. intros y Hy. apply H. now right.
Qed.

Lemma existing_cols_present (df : DataFrame) (l : string) :
  In l (existing_cols df) <-> In l desired_cols /\ In l (columns df).
Proof. unfold existing_cols. now rewrite filter_In, has_column_In. Qed.

Lemma columns_keep_final_columns (df : DataFrame) :
  NoDup (columns df) ->
  columns (keep_final_columns df) = existing_cols df.
Proof.
  intros Hnd. unfold keep_final_columns, getitem_list. simpl.
  apply flat_map_singletons. intros l Hl.
  rewrite select_map_filter. apply filter_eqb_NoDup; [assumption|].
  now apply existing_cols_present in Hl.
Qed.

Lemma columns_remove_bottom (n : nat) (df : DataFrame) :
  columns (remove_bottom n df) = columns df.
Proof.
  unfold remove_bottom. now destruct ((0 <? n) && (n <=? length (rows df))).
Qed.

Lemma columns_finish (n : nat) (df : DataFrame) :
  columns (finish n df) = columns (keep_final_columns df).
Proof. unfold finish. now rewrite columns_remove_bottom. Qed.

Lemma filter_subseq {A : Type} (p : A -> bool) (l : list A) :
  subseq (filter p l) l.
Proof.
  induction l as [|x l IH]; simpl; [constructor|].
  destruct (p x); now constructor.
Qed.

Lemma desired_cols_NoDup : NoDup desired_cols.
Proof.
  unfold desired_cols.
  repeat (constructor; [simpl; intuition discriminate|]). constructor.
Qed.

(** The whole function succeeds as soon as step 2 finds a header, and its
    result is [finish] applied to a frame whose labels are unique. *)
Lemma process_card_data_ok (df : RawTable) (top bottom h : nat) :
  verified_header_index (remove_top top df) = Some h ->
  exists df9,
    extract_card_no (identify_card_column (install_header h (remove_top top df)))
    = Ok df9 /\
    NoDup (columns df9) /\
    process_card_data df top bottom = Ok (finish bottom df9).
Proof.
  intros E.
  destruct (extract_card_no_ok
              (identify_card_column (install_header h (remove_top top df))))
    as [df9 [E9 Hnd]].
  { apply identify_card_column_NoDup, install_header_NoDup. }
  exists df9. repeat split; [assumption | assumption |].
  unfold process_card_data. now rewrite E, E9.
Qed.

(** C2: when, after the top trim, one of the first [min 10 rowCount] rows has
    a cell whose string form contains "Verified", the normaliser returns a
    table, not an error, and the column names of that table are a
    duplicate-free subsequence of
    "Card No.", "Verified", "Date", "Payee", "Charges". *)
Theorem header_found_succeeds (df : RawTable) (top bottom : nat) :
  (exists i, i < Nat.min 10 (length (remove_top top df)) /\
             mentions_verified (nth i (remove_top top df) [])) ->
  exists out,
    process_card_data df top bottom = Ok out /\
    subseq (columns out) desired_cols /\
    NoDup (columns out).
Proof.
  intros H. apply header_found in H. destruct H as [h [E _]].
  destruct (process_card_data_ok df top bottom h E) as [df9 [_ [Hnd Hp]]].
  exists (finish bottom df9). split; [assumption|].
  rewrite columns_finish, (columns_keep_final_columns df9 Hnd).
  split; [apply filter_subseq|].
  apply NoDup_filter, desired_cols_NoDup.
Qed.

Lemma header_found_succeeds_witness :
  exists out,
    process_card_data two_row_report 0 0 = Ok out /\
    subseq (columns out) desired_cols /\
    NoDup (columns out).
Proof.
  apply (header_found_succeeds two_row_report 0 0).
  exists 0. split; [simpl; lia|].
  apply row_has_verified_iff. reflexivity.
Defined.

(** ** Selection of the identifier column *)

Lemma no_candidate_chosen_col (df : DataFrame) :
  no_candidate df -> chosen_col df = None.
Proof.
  intros H. destruct (chosen_col df) as [c|] eqn:E; [exfalso | reflexivity].
  unfold chosen_col in E. apply find_some in E. destruct E as [Hc Hs].
  unfold card_cols in Hc. apply filter_In in Hc. destruct Hc as [Hc Hp].
  apply existsb_exists in Hs. destruct Hs as [v [Hv Hd]].
  unfold has_digits in Hd. now rewrite (H c Hc Hp v Hv) in Hd.
Qed.

(** C8, as stated, fails: the only candidate column of this report has no
    digit, no identifier column is selected, and step 9 still runs, because
    it looks for the label "CardHolderName" and the header already has it;
    the result has a "Card No." column the header did not have. *)
Lemma unselected_column_is_extracted :
  no_candidate (install_header 0 literal_name_report) /\
  chosen_col (install_header 0 literal_name_report) = None /\
  has_column "Card No." (columns (install_header 0 literal_name_report)) = false /\
  process_card_data literal_name_report 0 0
  = Ok (mkDF ["Card No."; "Verified"] [[NaN; Str "Y"]]).
Proof.
  assert (H : no_candidate (install_header 0 literal_name_report)).
  { intros c Hc Hp v Hv. vm_compute in Hc.
    destruct Hc as [<-|[<-|[]]].
    - vm_compute in Hv. destruct Hv as [<-|[]]. reflexivity.
    - discriminate Hp. }
  split; [assumption|]. split; [now apply no_candidate_chosen_col|].
  split; reflexivity.
Qed.

(** The same with digits below the sampled rows: they are extracted. *)
Example unselected_column_digits_extracted :
  let report := [Str "CardHolderName"; Str "Verified"]
                :: repeat [Str "Bob"; Str "Y"] 20 ++ [[Str "CH7"; Str "Y"]] in
  chosen_col (install_header 0 report) = None /\
  exists out,
    process_card_data report 0 0 = Ok out /\
    series "Card No." out = repeat NaN 20 ++ [Str "7"].
Proof. split; [reflexivity|]. eexists. split; reflexivity. Qed.

(** C8, amended: when no candidate column has a digit sequence in its sample,
    no identifier column is selected and step 8 changes nothing; if moreover
    no column is named exactly "CardHolderName", step 9 is skipped too: the
    result is computed from the frame of step 7, and it has a "Card No."
    column only if the header itself had one. *)
Theorem no_candidate_skips_extraction (df : RawTable) (top bottom h : nat) :
  verified_header_index (remove_top top df) = Some h ->
  no_candidate (install_header h (remove_top top df)) ->
  chosen_col (install_header h (remove_top top df)) = None /\
  identify_card_column (install_header h (remove_top top df))
  = install_header h (remove_top top df) /\
  (has_column "CardHolderName" (columns (install_header h (remove_top top df))) = false ->
   extract_card_no (identify_card_column (install_header h (remove_top top df)))
   = Ok (install_header h (remove_top top df)) /\
   process_card_data df top bottom
   = Ok (finish bottom (install_header h (remove_top top df))) /\
   (In "Card No." (columns (finish bottom (install_header h (remove_top top df))))
    <-> In "Card No." (columns (install_header h (remove_top top df))))).
Proof.
  intros E H. set (df7 := install_header h (remove_top top df)) in *.
  assert (C : chosen_col df7 = None) by now apply no_candidate_chosen_col.
  assert (I8 : identify_card_column df7 = df7).
  { unfold identify_card_column. now rewrite C. }
  split; [assumption|]. split; [assumption|].
  intros Hno.
  assert (I9 : extract_card_no (identify_card_column df7) = Ok df7).
  { rewrite I8. unfold extract_card_no. now rewrite Hno. }
  split; [assumption|]. split.
  - unfold process_card_data. rewrite E. fold df7. now rewrite I9.
  - rewrite columns_finish, columns_keep_final_columns
      by apply install_header_NoDup.
    rewrite existing_cols_present. unfold desired_cols. simpl. intuition.
Qed.

Lemma no_candidate_skips_extraction_witness :
  process_card_data no_digit_report 0 0
  = Ok (finish 0 (install_header 0 (remove_top 0 no_digit_report))).
Proof.
  refine (proj1 (proj2 (proj2 (proj2
            (no_candidate_skips_extraction no_digit_report 0 0 0 _ _)) _))).
  - reflexivity.
  - intros c Hc Hp v Hv. vm_compute in Hc.
    destruct Hc as [<-|[<-|[]]].
    + vm_compute in Hv. destruct Hv as [<-|[]]. reflexivity.
    + discriminate Hp.
  - reflexivity.
Defined.

(** ** Cells of a row through the column operations *)

Section Cells.

Local Abbreviation CHN := "CardHolderName"%string.

Lemma select_length {A B : Type} (mask : list bool) (l : list A) (l' : list B) :
  length l = length l' -> length (select mask l) = length (select mask l').
Proof.
  revert l l'; induction mask as [|b mask IH]; intros [|x l] [|y l'] H;
    simpl in *; try reflexivity; try discriminate.
  injection H as H. destruct b; simpl; now rewrite (IH l l' H).
Qed.

Lemma cell_at_nil (name : string) (cols : list string) :
  cell_at name cols [] = NaN.
Proof. now destruct cols. Qed.

(** A mask that depends on the label only and keeps the label [name]. *)
Lemma cell_at_filter (name : string) (p : string -> bool) (cols : list string)
    (r : row) :
  p name = true ->
  cell_at name (select (map p cols) cols) (select (map p cols) r)
  = cell_at name cols r.
Proof.
  intros Hp. revert r; induction cols as [|c cols IH]; intros [|x r];
    simpl; try reflexivity.
  - destruct (p c); [reflexivity | apply cell_at_nil].
  - destruct (String.eqb name c) eqn:E.
    + apply String.eqb_eq in E. subst c. rewrite Hp. simpl.
      now rewrite String.eqb_refl.
    + destruct (p c); simpl; [rewrite E|]; apply IH.
Qed.

(** Step 6 keeps the leftmost column of every label. *)
Lemma cell_at_dedup (name : string) (seen cols : list string) (r : row) :
  ~ In name seen ->
  cell_at name (select (map negb (duplicated_from seen cols)) cols)
               (select (map negb (duplicated_from seen cols)) r)
  = cell_at name cols r.
Proof.
  revert seen r; induction cols as [|c cols IH]; intros seen [|x r] Hs;
    simpl; try reflexivity.
  - destruct (negb (has_column c seen)); [reflexivity | apply cell_at_nil].
  - destruct (String.eqb name c) eqn:E.
    + apply String.eqb_eq in E. subst c.
      apply has_column_not_In in Hs. rewrite Hs. simpl.
      now rewrite String.eqb_refl.
    + assert (Hs' : ~ In name (c :: seen)).
      { intros [->|H]; [|contradiction]. now rewrite String.eqb_refl in E. }
      destruct (has_column c seen); simpl; [|rewrite E]; now apply IH.
Qed.

Lemma cell_at_rename (name old new : string) (cols : list string) (r : row) :
  name <> old -> name <> new ->
  cell_at name (map (fun c => if String.eqb old c then new else c) cols) r
  = cell_at name cols r.
Proof.
  intros Ho Hn. revert r; induction cols as [|c cols IH]; intros [|x r];
    simpl; try reflexivity.
  rewrite IH. destruct (String.eqb old c) eqn:E.
  - apply String.eqb_eq in E. subst c.
    apply String.eqb_neq in Ho, Hn. now rewrite Ho, Hn.
  - reflexivity.
Qed.

Lemma cell_at_replace_other (name k : string) (cols : list string) (r : row)
    (v : cell) :
  name <> k ->
  cell_at name cols (replace_under k cols r v) = cell_at name cols r.
Proof.
  intros H. revert r; induction cols as [|c cols IH]; intros [|x r];
    simpl; try reflexivity.
  destruct (String.eqb k c) eqn:E; simpl.
  - apply String.eqb_eq in E. subst c. apply String.eqb_neq in H. now rewrite H.
  - now rewrite IH.
Qed.

Lemma cell_at_replace_same (k : string) (cols : list string) (r : row) (v : cell) :
  In k cols -> length cols <= length r ->
  cell_at k cols (replace_under k cols r v) = v.
Proof.
  revert r; induction cols as [|c cols IH]; intros [|x r] Hin Hlen;
    simpl in *; try contradiction; try lia.
  destruct (String.eqb k c) eqn:E; simpl; rewrite ?E; [reflexivity|].
  apply IH; [|lia]. destruct Hin as [->|Hin]; [|assumption].
  now rewrite String.eqb_refl in E.
Qed.

Lemma cell_at_append_other (name k : string) (cols : list string) (r : row)
    (v : cell) :
  name <> k -> length r = length cols ->
  cell_at name (cols ++ [k]) (r ++ [v]) = cell_at name cols r.
Proof.
  intros H. apply String.eqb_neq in H.
  revert r; induction cols as [|c cols IH]; intros [|x r] Hlen;
    simpl in *; try discriminate.
  - now rewrite H.
  - destruct (String.eqb name c); [reflexivity|]. apply IH. lia.
Qed.

Lemma cell_at_append_same (k : string) (cols : list string) (r : row) (v : cell) :
  ~ In k cols -> length r = length cols ->
  cell_at k (cols ++ [k]) (r ++ [v]) = v.
Proof.
  revert r; induction cols as [|c cols IH]; intros [|x r] Hin Hlen;
    simpl in *; try discriminate.
  - now rewrite String.eqb_refl.
  - destruct (String.eqb k c) eqn:E.
    + apply String.eqb_eq in E. subst c. exfalso. apply Hin. now left.
    + apply IH; [|lia]. intros H. apply Hin. now right.
Qed.

Lemma replace_under_length (k : string) (cols : list string) (r : row) (v : cell) :
  length (replace_under k cols r v) = length r.
Proof.
  revert r; induction cols as [|c cols IH]; intros [|x r]; simpl; try reflexivity.
  destruct (String.eqb k c); simpl; [reflexivity | now rewrite IH].
Qed.

Lemma cells_under_absent (l : string) (cols : list string) (r : row) :
  ~ In l cols -> cells_under l cols r = [].
Proof.
  unfold cells_under.
  revert r; induction cols as [|c cols IH]; intros [|y r] H; simpl; try reflexivity.
  destruct (String.eqb l c) eqn:E.
  - apply String.eqb_eq in E. subst c. exfalso. apply H. now left.
  - apply IH. intros Hin. apply H. now right.
Qed.

(** Under unique labels a label has exactly one cell in a full row. *)
Lemma cells_under_NoDup (l : string) (cols : list string) (r : row) :
  NoDup cols -> In l cols -> length cols <= length r ->
  cells_under l cols r = [cell_at l cols r].
Proof.
  unfold cells_under.
  revert r; induction cols as [|c cols IH]; intros [|x r] Hnd Hin Hlen;
    simpl in *; try contradiction; try lia.
  inversion Hnd as [|? ? Hc Hnd']; subst.
  destruct (String.eqb l c) eqn:E.
  - apply String.eqb_eq in E. subst c. f_equal.
    now apply (cells_under_absent l cols r).
  - apply IH; [assumption | | lia].
    destruct Hin as [->|Hin]; [|assumption]. now rewrite String.eqb_refl in E.
Qed.

(** Under unique labels every cell under a label is the leftmost one. *)
Lemma cells_under_cell_at (l : string) (cols : list string) (r : row) (x : cell) :
  NoDup cols -> In x (cells_under l cols r) -> x = cell_at l cols r.
Proof.
  unfold cells_under.
  revert r; induction cols as [|c cols IH]; intros [|y r] Hnd Hin;
    simpl in *; try contradiction.
  inversion Hnd as [|? ? Hc Hnd']; subst.
  destruct (String.eqb l c) eqn:E; [|now apply IH].
  apply String.eqb_eq in E. subst c.
  destruct Hin as [<-|Hin]; [reflexivity|]. exfalso.
  change (In x (cells_under l cols r)) in Hin.
  now rewrite (cells_under_absent l cols r Hc) in Hin.
Qed.

(** A cell that is not missing is among the cells under its label. *)
Lemma cell_at_cells_under (l : string) (cols : list string) (r : row) :
  cell_at l cols r <> NaN -> In (cell_at l cols r) (cells_under l cols r).
Proof.
  unfold cells_under.
  revert r; induction cols as [|c cols IH]; intros [|y r] H;
    simpl in *; try congruence.
  destruct (String.eqb l c); [now left | now apply IH].
Qed.

Lemma cell_at_map (name : string) (f : string -> cell) (labels : list string) :
  In name labels -> cell_at name labels (map f labels) = f name.
Proof.
  induction labels as [|l labels IH]; intros Hin; simpl; [destruct Hin|].
  destruct (String.eqb name l) eqn:E.
  - apply String.eqb_eq in E. now subst l.
  - apply IH. destruct Hin as [->|Hin]; [|assumption].
    now rewrite String.eqb_refl in E.
Qed.

(** A row of step 10, under unique labels. *)
Lemma projected_row (labels cols : list string) (r : row) :
  NoDup cols -> (forall l, In l labels -> In l cols) -> length cols <= length r ->
  flat_map (fun l => cells_under l cols r) labels
  = map (fun l => cell_at l cols r) labels.
Proof.
  intros Hnd Hin Hlen. induction labels as [|l labels IH]; simpl; [reflexivity|].
  rewrite cells_under_NoDup; [|assumption | apply Hin; now left | assumption].
  simpl. f_equal. apply IH. intros x Hx. apply Hin. now right.
Qed.

End Cells.

(** ** Digit extraction *)

Lemma take_digits_split (s : string) :
  exists post : string,
    s = (Py.take_digits s ++ post)%string /\
    all_chars Py.is_digit (Py.take_digits s) = true /\
    stops_digits post.
Proof.
  induction s as [|c s [post [E [Hd Hp]]]]; simpl.
  - now exists EmptyString.
  - destruct (Py.is_digit c) eqn:D.
    + exists post. simpl. rewrite D, Hd. rewrite <- E.
      split; [reflexivity|]. split; [reflexivity | assumption].
    + exists (String c s). simpl. split; [reflexivity|]. split; [reflexivity | assumption].
Qed.

Lemma take_digits_run (d post : string) :
  all_chars Py.is_digit d = true -> stops_digits post ->
  Py.take_digits (d ++ post) = d.
Proof.
  intros Hd Hp. induction d as [|c d IH]; simpl in *.
  - destruct post as [|c post]; simpl in *; [reflexivity | now rewrite Hp].
  - apply andb_true_iff in Hd. destruct Hd as [Hc Hd].
    rewrite Hc. now rewrite IH.
Qed.

Lemma search_digits_some (s d : string) :
  Py.search_digits s = Some d <-> first_digit_run s d.
Proof.
  split.
  - induction s as [|c s IH]; simpl; [discriminate|].
    destruct (Py.is_digit c) eqn:D.
    + intros [= <-].
      destruct (take_digits_split (String c s)) as [post [E [Hd Hp]]].
      simpl in E, Hd. rewrite D in E, Hd.
      exists EmptyString, post.
      split; [exact E|]. split; [reflexivity|].
      split; [discriminate|]. split; [exact Hd | exact Hp].
    + intros H. destruct (IH H) as [pre [post [E [Hpre Hrest]]]].
      exists (String c pre), post. split; [simpl; now rewrite E|].
      split; [|assumption]. unfold no_digit in *. simpl. now rewrite D, Hpre.
  - intros [pre [post [-> [Hpre [Hne [Hd Hp]]]]]].
    induction pre as [|c pre IH]; simpl.
    + destruct d as [|c d]; [congruence|].
      simpl in *. apply andb_true_iff in Hd. destruct Hd as [Hc Hd].
      rewrite Hc. f_equal. f_equal. now apply take_digits_run.
    + unfold no_digit in Hpre. simpl in Hpre.
      apply andb_true_iff in Hpre. destruct Hpre as [Hc Hpre].
      apply negb_true_iff in Hc. rewrite Hc. now apply IH.
Qed.

Lemma search_digits_none (s : string) :
  Py.search_digits s = None <-> no_digit s.
Proof.
  unfold no_digit. induction s as [|c s IH]; simpl; [easy|].
  destruct (Py.is_digit c); simpl; [split; discriminate | exact IH].
Qed.

(** ** Forward fill *)

Lemma ffill_from_length {A : Type} (last : option A) (l : list (option A)) :
  length (ffill_from last l) = length l.
Proof.
  revert last; induction l as [|[x|] l IH]; intros last; simpl;
    [reflexivity | |]; now rewrite IH.
Qed.

Lemma ffill_from_nearest {A : Type} (l : list (option A)) :
  forall (last : option A) (i : nat),
    i < length l ->
    (exists x, nth i (ffill_from last l) None = Some x /\
               nearest_preceding l i (Some x))
    \/ (nth i (ffill_from last l) None = last /\ nearest_preceding l i None).
Proof.
  induction l as [|a l IH]; intros last i Hi; simpl in Hi; [lia|].
  destruct i as [|i].
  - destruct a as [x|]; simpl.
    + left. exists x. split; [reflexivity|]. exists 0.
      repeat split; [lia | intros k Hk; lia].
    + right. split; [reflexivity|]. intros [|k] Hk; [reflexivity | lia].
  - assert (Hi' : i < length l) by lia.
    destruct a as [x|]; simpl.
    + left. destruct (IH (Some x) i Hi') as [[y [Hy [j [Hj [Hnj Hk]]]]] | [Hy Hnone]].
      * exists y. split; [assumption|]. exists (S j).
        repeat split; [lia | assumption |].
        intros [|k] Hlt; [lia|]. apply Hk. lia.
      * exists x. split; [assumption|]. exists 0.
        repeat split; [lia|]. intros [|k] Hlt; [lia|]. apply Hnone. lia.
    + destruct (IH last i Hi') as [[y [Hy [j [Hj [Hnj Hk]]]]] | [Hy Hnone]].
      * left. exists y. split; [assumption|]. exists (S j).
        repeat split; [lia | assumption |].
        intros [|k] Hlt; [lia|]. apply Hk. lia.
      * right. split; [assumption|].
        intros [|k] Hlt; [reflexivity|]. apply Hnone. lia.
Qed.

Lemma ffill_nearest {A : Type} (l : list (option A)) (i : nat) :
  i < length l -> nearest_preceding l i (nth i (ffill l) None).
Proof.
  intros Hi. unfold ffill.
  destruct (ffill_from_nearest l None i Hi) as [[x [-> H]] | [-> H]]; assumption.
Qed.

Lemma card_no_series_length (cells : list cell) :
  length (card_no_series cells) = length cells.
Proof.
  unfold card_no_series, ffill.
  now rewrite length_map, ffill_from_length, length_map.
Qed.

(** ** Columns as series *)

Lemma snd_combine {A B : Type} (l : list A) (l' : list B) :
  length l = length l' -> map snd (combine l l') = l'.
Proof.
  revert l'; induction l as [|x l IH]; intros [|y l'] H; simpl in *;
    try reflexivity; try discriminate.
  f_equal. apply IH. lia.
Qed.

Lemma series_length (name : string) (df : DataFrame) :
  length (series name df) = length (rows df).
Proof. unfold series. apply length_map. Qed.

Lemma series_drop_column (name c : string) (df : DataFrame) :
  name <> c -> series name (drop_column c df) = series name df.
Proof.
  intros H. unfold series, drop_column, loc_columns. simpl.
  rewrite map_map. apply map_ext. intros r.
  apply (cell_at_filter name (fun x => negb (String.eqb c x))).
  apply negb_true_iff, String.eqb_neq. congruence.
Qed.

Lemma series_setitem_same (name : string) (vals : list cell) (df : DataFrame) :
  rectangular df -> length vals = length (rows df) ->
  series name (setitem name vals df) = vals.
Proof.
  intros Hrect Hlen. unfold series, setitem.
  destruct (has_column name (columns df)) eqn:E; simpl; rewrite map_map.
  - apply has_column_In in E.
    rewrite <- (snd_combine (rows df) vals) at 2 by (symmetry; exact Hlen).
    apply map_ext_in. intros [r v] Hrv. simpl.
    apply in_combine_l in Hrv.
    apply cell_at_replace_same; [assumption|].
    unfold rectangular in Hrect. rewrite Forall_forall in Hrect.
    rewrite (Hrect r Hrv). apply Nat.le_refl.
  - apply has_column_not_In in E.
    rewrite <- (snd_combine (rows df) vals) at 2 by (symmetry; exact Hlen).
    apply map_ext_in. intros [r v] Hrv. simpl.
    apply in_combine_l in Hrv.
    apply cell_at_append_same; [assumption|].
    unfold rectangular in Hrect. rewrite Forall_forall in Hrect.
    apply (Hrect r Hrv).
Qed.

(** Step 9 on a frame that has the label "CardHolderName". *)
Lemma series_extract_card_no (df : DataFrame) :
  rectangular df -> NoDup (columns df) -> In "CardHolderName" (columns df) ->
  exists df9,
    extract_card_no df = Ok df9 /\
    series "Card No." df9 = card_no_series (series "CardHolderName" df).
Proof.
  intros Hrect Hnd Hin. unfold extract_card_no.
  rewrite (proj2 (has_column_In _ _) Hin).
  assert (H1 : (1 <? label_count "CardHolderName" (columns df)) = false).
  { apply Nat.ltb_ge. now apply label_count_NoDup. }
  assert (H2 : (1 <? label_count "Card No." (columns df)) = false).
  { apply Nat.ltb_ge. now apply label_count_NoDup. }
  rewrite H1, H2. eexists. split; [reflexivity|].
  rewrite series_drop_column by discriminate.
  apply series_setitem_same; [assumption|].
  now rewrite card_no_series_length, series_length.
Qed.

(** X15: the identifier pass (line 67) maps each cell of the identifier column
    to the first contiguous digit run of its string form, missing when the
    cell is null or has no digit, and then forward-fills: position [i] gets
    the nearest non-missing extracted value at or before [i], and stays
    missing when there is none; [null, "12", null, "34"] becomes
    [null, "12", "12", "34"]; and on a frame that has the identifier column
    step 9 stores exactly that series under "Card No.". *)
Theorem identifier_pass :
  (forall c d, extract_digits c = Some d <-> first_digit_run (astype_str c) d) /\
  (forall c, extract_digits c = None <-> c = NaN \/ no_digit (astype_str c)) /\
  (forall cells,
     length (card_no_series cells) = length cells /\
     forall i, i < length cells ->
       exists v, nth i (card_no_series cells) NaN = cell_of_option v /\
                 nearest_preceding (map extract_digits cells) i v) /\
  card_no_series [NaN; Str "12"; NaN; Str "34"]
  = [NaN; Str "12"; Str "12"; Str "34"] /\
  (forall df,
     rectangular df -> NoDup (columns df) -> In "CardHolderName" (columns df) ->
     exists df9,
       extract_card_no df = Ok df9 /\
       series "Card No." df9 = card_no_series (series "CardHolderName" df)).
Proof.
  split; [|split; [|split; [|split]]].
  - intros c d. apply search_digits_some.
  - intros c. unfold extract_digits. rewrite search_digits_none. split.
    + now right.
    + intros [-> | H]; [reflexivity | assumption].
  - intros cells. split; [apply card_no_series_length|].
    intros i Hi. exists (nth i (ffill (map extract_digits cells)) None). split.
    + unfold card_no_series.
      change NaN with (cell_of_option None). apply map_nth.
    + apply ffill_nearest. now rewrite length_map.
  - reflexivity.
  - exact series_extract_card_no.
Qed.

Lemma identifier_pass_witness :
  exists df9,
    extract_card_no identifier_frame = Ok df9 /\
    series "Card No." df9 = [NaN; Str "12"; Str "12"; Str "34"].
Proof.
  destruct identifier_pass as [_ [_ [_ [Hex Hstep]]]].
  destruct (Hstep identifier_frame) as [df9 [E S]].
  - repeat constructor.
  - repeat (constructor; [simpl; intuition discriminate|]). constructor.
  - now left.
  - exists df9. split; [exact E|]. rewrite S. exact Hex.
Defined.

(** ** The non-identifier columns through steps 3 to 10 *)

Lemma check_name_not_card (name : string) :
  In name check_names -> Py.startswith name "CardHolderName" = false.
Proof. intros H. check_cases H; reflexivity. Qed.

Lemma check_name_desired (name : string) :
  In name check_names <-> In name desired_cols /\ name <> "Card No."%string.
Proof.
  unfold check_names, desired_cols. simpl. split.
  - intros H. repeat (destruct H as [<-|H]; [split; [tauto | discriminate]|]).
    destruct H.
  - intros [[H|H] Hne]; [congruence | tauto].
Qed.

Lemma rectangular_loc_columns (mask : list bool) (df : DataFrame) :
  rectangular df -> rectangular (loc_columns mask df).
Proof.
  unfold rectangular, loc_columns. simpl. intros H.
  apply Forall_map. eapply Forall_impl; [|exact H].
  intros r Hr. now apply select_length.
Qed.

Lemma rectangular_set_header (h : nat) (t : RawTable) :
  rectangular_table t -> h < length t -> rectangular (set_header h t).
Proof.
  intros Ht Hh. unfold rectangular, set_header. simpl.
  apply Forall_forall. intros r Hr. rewrite length_map.
  apply Ht; [|now apply nth_In].
  rewrite <- (firstn_skipn (S h) t). apply in_or_app. now right.
Qed.

Lemma name_blanks_length (k : nat) (cols : list string) :
  length (name_blanks k cols) = length cols.
Proof.
  revert k; induction cols as [|c cols IH]; intros k; simpl; [reflexivity|].
  destruct (String.eqb c ""); simpl; now rewrite IH.
Qed.

Lemma cell_at_name_blanks (name : string) (k : nat) (cols : list string) (r : row) :
  In name check_names ->
  cell_at name (name_blanks k cols) r = cell_at name cols r.
Proof.
  intros Hn. revert k r; induction cols as [|c cols IH]; intros k [|x r];
    simpl; try reflexivity.
  - now destruct (String.eqb c "").
  - destruct (String.eqb c "") eqn:E; simpl; rewrite IH; [|reflexivity].
    apply String.eqb_eq in E. subst c.
    check_cases Hn; reflexivity.
Qed.

Lemma install_header_rectangular (h : nat) (t : RawTable) :
  rectangular_table t -> h < length t -> rectangular (install_header h t).
Proof.
  intros Ht Hh. unfold install_header, drop_record_column.
  set (d := drop_duplicate_columns _).
  assert (H : rectangular d).
  { apply rectangular_loc_columns. unfold rectangular, rename_blank_columns. simpl.
    rewrite name_blanks_length. now apply rectangular_set_header. }
  destruct (has_column "Record#" (columns d)); [|assumption].
  now apply rectangular_loc_columns.
Qed.

Lemma install_header_series (name : string) (h : nat) (t : RawTable) :
  In name check_names ->
  series name (install_header h t)
  = map (cell_at name (map clean_column_name (nth h t []))) (skipn (S h) t).
Proof.
  intros Hn. unfold install_header, drop_record_column.
  set (d := drop_duplicate_columns _).
  assert (H : series name d
              = map (cell_at name (map clean_column_name (nth h t []))) (skipn (S h) t)).
  { unfold d, series, drop_duplicate_columns, loc_columns, rename_blank_columns,
      set_header, duplicated. simpl.
    rewrite map_map. apply map_ext. intros r.
    rewrite cell_at_dedup by (intros []).
    now apply cell_at_name_blanks. }
  destruct (has_column "Record#" (columns d)); [|assumption].
  rewrite series_drop_column; [assumption|].
  check_cases Hn; discriminate.
Qed.

Lemma rectangular_drop_other_card_cols (chosen : string) (cands : list string)
    (df : DataFrame) :
  rectangular df -> rectangular (drop_other_card_cols chosen cands df).
Proof.
  unfold drop_other_card_cols.
  revert df; induction cands as [|c cands IH]; intros df H; simpl; [assumption|].
  apply IH. destruct (String.eqb c chosen); [assumption|].
  now apply rectangular_loc_columns.
Qed.

Lemma series_drop_other_card_cols (name chosen : string) (cands : list string)
    (df : DataFrame) :
  (forall c, In c cands -> c = chosen \/ c <> name) ->
  series name (drop_other_card_cols chosen cands df) = series name df.
Proof.
  unfold drop_other_card_cols.
  revert df; induction cands as [|c cands IH]; intros df H; simpl; [reflexivity|].
  rewrite IH by (intros x Hx; apply H; now right).
  destruct (String.eqb c chosen) eqn:E; [reflexivity|].
  apply series_drop_column.
  destruct (H c (or_introl eq_refl)) as [->|Hc]; [|congruence].
  now rewrite String.eqb_refl in E.
Qed.

Lemma identify_card_column_rectangular (df : DataFrame) :
  rectangular df -> rectangular (identify_card_column df).
Proof.
  intros H. unfold identify_card_column.
  destruct (chosen_col df) as [chosen|]; [|assumption].
  apply rectangular_drop_other_card_cols.
  unfold rectangular, rename_column in *. simpl. now rewrite length_map.
Qed.

Lemma identify_card_column_series (name : string) (df : DataFrame) :
  In name check_names ->
  series name (identify_card_column df) = series name df.
Proof.
  intros Hn. unfold identify_card_column.
  destruct (chosen_col df) as [chosen|] eqn:E; [|reflexivity].
  apply chosen_col_is_card_col in E. destruct E as [_ Hp].
  pose proof (check_name_not_card name Hn) as Hq.
  rewrite series_drop_other_card_cols.
  - unfold series, rename_column. simpl. apply map_ext. intros r.
    apply cell_at_rename.
    + intros ->. congruence.
    + check_cases Hn; discriminate.
  - intros c Hc. right. intros ->.
    unfold card_cols in Hc. apply filter_In in Hc. destruct Hc as [_ Hc]. congruence.
Qed.

Lemma rectangular_setitem (name : string) (vals : list cell) (df : DataFrame) :
  rectangular df -> rectangular (setitem name vals df).
Proof.
  unfold rectangular, setitem. intros H. rewrite Forall_forall in H.
  destruct (has_column name (columns df)); simpl;
    apply Forall_map, Forall_forall; intros [r v] Hrv; simpl;
    apply in_combine_l in Hrv.
  - rewrite replace_under_length. now apply H.
  - rewrite !length_app. simpl. now rewrite (H r Hrv).
Qed.

Lemma series_setitem_other (name k : string) (vals : list cell) (df : DataFrame) :
  name <> k -> rectangular df -> length vals = length (rows df) ->
  series name (setitem k vals df) = series name df.
Proof.
  intros Hne Hrect Hlen. unfold rectangular in Hrect. rewrite Forall_forall in Hrect.
  assert (Hfst : map fst (combine (rows df) vals) = rows df).
  { clear Hrect. revert vals Hlen. induction (rows df) as [|r l IH]; intros [|v vals] H;
      simpl in *; try reflexivity; try discriminate.
    f_equal. apply IH. lia. }
  unfold series, setitem.
  destruct (has_column k (columns df)); simpl; rewrite map_map;
    rewrite <- Hfst at 2; rewrite map_map; apply map_ext_in;
    intros [r v] Hrv; simpl; apply in_combine_l in Hrv.
  - now apply cell_at_replace_other.
  - apply cell_at_append_other; [assumption | now apply Hrect].
Qed.

Lemma extract_card_no_series (name : string) (df df9 : DataFrame) :
  In name check_names -> rectangular df ->
  extract_card_no df = Ok df9 ->
  rectangular df9 /\ series name df9 = series name df.
Proof.
  intros Hn Hrect. unfold extract_card_no.
  destruct (has_column "CardHolderName" (columns df)); [|intros [= <-]; now split].
  destruct (1 <? label_count "CardHolderName" (columns df)); [discriminate|].
  destruct (1 <? label_count "Card No." (columns df)); [discriminate|].
  intros [= <-]. split.
  - now apply rectangular_loc_columns, rectangular_setitem.
  - rewrite series_drop_column by (check_cases Hn; discriminate).
    apply series_setitem_other; [check_cases Hn; discriminate | assumption |].
    now rewrite card_no_series_length, series_length.
Qed.

(** ** Row counts through steps 3 to 10 *)

Lemma rows_drop_other_card_cols (chosen : string) (cands : list string)
    (df : DataFrame) :
  length (rows (drop_other_card_cols chosen cands df)) = length (rows df).
Proof.
  unfold drop_other_card_cols.
  revert df; induction cands as [|c cands IH]; intros df; simpl; [reflexivity|].
  rewrite IH. destruct (String.eqb c chosen); [reflexivity|].
  unfold drop_column, loc_columns. simpl. apply length_map.
Qed.

Lemma rows_install_header (h : nat) (t : RawTable) :
  length (rows (install_header h t)) = length (skipn (S h) t).
Proof.
  unfold install_header, drop_record_column.
  set (d := drop_duplicate_columns _).
  assert (H : length (rows d) = length (skipn (S h) t)).
  { unfold d, drop_duplicate_columns, loc_columns. simpl. apply length_map. }
  destruct (has_column "Record#" (columns d)); [|assumption].
  unfold drop_column, loc_columns. simpl. now rewrite length_map.
Qed.

Lemma rows_identify_card_column (df : DataFrame) :
  length (rows (identify_card_column df)) = length (rows df).
Proof.
  unfold identify_card_column. destruct (chosen_col df); [|reflexivity].
  now rewrite rows_drop_other_card_cols.
Qed.

Lemma rows_setitem (name : string) (vals : list cell) (df : DataFrame) :
  length vals = length (rows df) ->
  length (rows (setitem name vals df)) = length (rows df).
Proof.
  intros H. unfold setitem.
  destruct (has_column name (columns df)); simpl;
    rewrite length_map, length_combine; lia.
Qed.

Lemma rows_extract_card_no (df df9 : DataFrame) :
  extract_card_no df = Ok df9 -> length (rows df9) = length (rows df).
Proof.
  unfold extract_card_no.
  destruct (has_column "CardHolderName" (columns df)); [|now intros [= <-]].
  destruct (1 <? label_count "CardHolderName" (columns df)); [discriminate|].
  destruct (1 <? label_count "Card No." (columns df)); [discriminate|].
  intros [= <-]. unfold drop_column, loc_columns. simpl. rewrite length_map.
  apply rows_setitem. now rewrite card_no_series_length, series_length.
Qed.

(** ** Steps 10 to 12 on a frame with unique labels *)

Lemma keep_final_columns_series (name : string) (df : DataFrame) :
  NoDup (columns df) -> rectangular df -> In name (existing_cols df) ->
  series name (keep_final_columns df) = series name df.
Proof.
  intros Hnd Hrect Hin. unfold series.
  rewrite (columns_keep_final_columns df Hnd).
  unfold keep_final_columns, getitem_list. simpl. rewrite map_map.
  apply map_ext_in. intros r Hr.
  unfold rectangular in Hrect. rewrite Forall_forall in Hrect.
  rewrite projected_row.
  - now apply cell_at_map.
  - assumption.
  - intros l Hl. now apply existing_cols_present in Hl.
  - rewrite (Hrect r Hr). apply Nat.le_refl.
Qed.

Lemma rows_remove_bottom (n : nat) (df : DataFrame) :
  exists k, rows (remove_bottom n df) = firstn k (rows df).
Proof.
  unfold remove_bottom.
  destruct ((0 <? n) && (n <=? length (rows df))); simpl.
  - now exists (length (rows df) - n).
  - exists (length (rows df)). now rewrite firstn_all.
Qed.

Lemma rows_finish (n : nat) (df : DataFrame) :
  exists k,
    rows (finish n df)
    = firstn k (filter (row_has_value (check_cols (existing_cols df))
                                      (columns (keep_final_columns df)))
                       (rows (keep_final_columns df))).
Proof. unfold finish. apply rows_remove_bottom. Qed.

Lemma check_cols_spec (cols : list string) (l : string) :
  In l (check_cols cols) <-> In l cols /\ l <> "Card No."%string.
Proof.
  unfold check_cols. rewrite filter_In, negb_true_iff, String.eqb_neq. tauto.
Qed.

(** ** Relating two lists position by position *)

Lemma subseq_refl {A : Type} (l : list A) : subseq l l.
Proof. induction l; [constructor | now apply subseq_keep]. Qed.

Lemma subseq_trans {A : Type} (l1 l2 l3 : list A) :
  subseq l1 l2 -> subseq l2 l3 -> subseq l1 l3.
Proof.
  intros H12 H23. revert l1 H12.
  induction H23 as [|x l2 l3 H IH|x l2 l3 H IH]; intros l1 H12.
  - assumption.
  - apply subseq_skip. now apply IH.
  - inversion H12; subst; [apply subseq_skip | apply subseq_keep]; now apply IH.
Qed.

Lemma firstn_subseq {A : Type} (k : nat) (l : list A) : subseq (firstn k l) l.
Proof.
  assert (Hnil : forall l' : list A, subseq [] l').
  { induction l'; now constructor. }
  revert k; induction l as [|x l IH]; intros [|k]; simpl; try apply Hnil.
  apply subseq_keep, IH.
Qed.

Lemma Forall2_filter_left {A B : Type} (R : A -> B -> Prop) (p : A -> bool)
    (l : list A) (l' : list B) :
  Forall2 R l l' ->
  exists kept, subseq kept l' /\ Forall2 R (filter p l) kept.
Proof.
  induction 1 as [|a b l l' Hab H [kept [Hs Hf]]]; simpl.
  - exists []. split; constructor.
  - destruct (p a).
    + exists (b :: kept). split; [now apply subseq_keep | now constructor].
    + exists kept. split; [now apply subseq_skip | assumption].
Qed.

Lemma Forall2_firstn {A B : Type} (R : A -> B -> Prop) (k : nat)
    (l : list A) (l' : list B) :
  Forall2 R l l' -> Forall2 R (firstn k l) (firstn k l').
Proof.
  intros H. revert k. induction H; intros [|k]; simpl; constructor; auto.
Qed.

Lemma Forall2_of_maps {A B C : Type} (P : string -> Prop)
    (f : string -> A -> C) (g : string -> B -> C) (l : list A) (l' : list B) :
  length l = length l' ->
  (forall name, P name -> map (f name) l = map (g name) l') ->
  Forall2 (fun a b => forall name, P name -> f name a = g name b) l l'.
Proof.
  revert l'; induction l as [|a l IH]; intros [|b l'] Hlen H; simpl in *;
    try discriminate; constructor.
  - intros name Hn. specialize (H name Hn). now inversion H.
  - apply IH; [lia|]. intros name Hn. specialize (H name Hn). now inversion H.
Qed.

(** ** The non-identifier cells of the result *)

Lemma verified_header_index_lt (t : RawTable) (h : nat) :
  verified_header_index t = Some h -> h < length t.
Proof.
  unfold verified_header_index. intros H. apply first_index_some in H.
  destruct H as [H _]. rewrite length_firstn in H. lia.
Qed.

Lemma rectangular_remove_top (n : nat) (t : RawTable) :
  rectangular_table t -> rectangular_table (remove_top n t).
Proof.
  intros H r r' Hr Hr'. unfold remove_top in *.
  apply H; rewrite <- (firstn_skipn n t); apply in_or_app; now right.
Qed.

(** The frame that enters step 10, seen from the report: it has unique
    labels, one row per data row, and in every non-identifier column the
    cells of the leftmost source column of that name. *)
Lemma frame_before_projection (df : RawTable) (top h : nat) (df9 : DataFrame) :
  rectangular_table df ->
  verified_header_index (remove_top top df) = Some h ->
  extract_card_no (identify_card_column (install_header h (remove_top top df)))
  = Ok df9 ->
  rectangular df9 /\
  length (rows df9) = length (skipn (S h) (remove_top top df)) /\
  forall name, In name check_names ->
    series name df9
    = map (cell_at name (map clean_column_name (nth h (remove_top top df) [])))
          (skipn (S h) (remove_top top df)).
Proof.
  intros Ht Eh E9.
  pose proof (verified_header_index_lt _ _ Eh) as Hh.
  pose proof (rectangular_remove_top top df Ht) as Ht1.
  pose proof (install_header_rectangular h _ Ht1 Hh) as R7.
  pose proof (identify_card_column_rectangular _ R7) as R8.
  split; [|split].
  - destruct (extract_card_no_series "Verified" _ df9
                ltac:(unfold check_names; simpl; tauto) R8 E9) as [R9 _].
    exact R9.
  - rewrite (rows_extract_card_no _ _ E9), rows_identify_card_column.
    apply rows_install_header.
  - intros name Hn.
    destruct (extract_card_no_series name _ df9 Hn R8 E9) as [_ S9].
    rewrite S9, (identify_card_column_series name _ Hn).
    now apply install_header_series.
Qed.

(** C10: on a rectangular report on which the normaliser succeeds, the rows of
    the result correspond, in order, to a subsequence of the data rows (the
    rows after the header row), and every cell of the result in a column
    "Verified", "Date", "Payee" or "Charges" is the cell of the corresponding
    data row in the leftmost source column whose cleaned header is that
    name. *)
Theorem checked_cells_unchanged (df : RawTable) (top bottom : nat)
    (out : DataFrame) :
  rectangular_table df ->
  process_card_data df top bottom = Ok out ->
  exists h kept,
    verified_header_index (remove_top top df) = Some h /\
    subseq kept (skipn (S h) (remove_top top df)) /\
    Forall2
      (fun r_out r_in =>
         forall name, In name check_names /\ In name (columns out) ->
           cell_at name (columns out) r_out
           = cell_at name (map clean_column_name (nth h (remove_top top df) []))
                     r_in)
      (rows out) kept.
Proof.
  intros Ht Hp.
  destruct (verified_header_index (remove_top top df)) as [h|] eqn:Eh;
    [|unfold process_card_data in Hp; rewrite Eh in Hp; discriminate].
  destruct (process_card_data_ok df top bottom h Eh) as [df9 [E9 [Hnd Hp']]].
  rewrite Hp' in Hp. injection Hp as <-.
  destruct (frame_before_projection df top h df9 Ht Eh E9) as [R9 [L9 S9]].
  exists h.
  set (data := skipn (S h) (remove_top top df)) in *.
  set (header := map clean_column_name (nth h (remove_top top df) [])) in *.
  set (df10 := keep_final_columns df9).
  assert (Hcols : columns (finish bottom df9) = columns df10)
    by apply columns_finish.
  assert (H10 : Forall2
                  (fun r_out r_in =>
                     forall name, In name check_names /\ In name (columns df10) ->
                       cell_at name (columns df10) r_out = cell_at name header r_in)
                  (rows df10) data).
  { apply Forall2_of_maps.
    - unfold df10, keep_final_columns, getitem_list. simpl.
      now rewrite length_map.
    - intros name [Hn Hin]. change (series name df10 = map (cell_at name header) data).
      unfold df10 in *. rewrite (columns_keep_final_columns df9 Hnd) in Hin.
      rewrite (keep_final_columns_series name df9 Hnd R9 Hin).
      now apply S9. }
  destruct (rows_finish bottom df9) as [k Hk]. fold df10 in Hk.
  destruct (Forall2_filter_left _
              (row_has_value (check_cols (existing_cols df9)) (columns df10)) _ _ H10)
    as [kept [Hsub Hkept]].
  exists (firstn k kept). split; [reflexivity|]. split.
  - eapply subseq_trans; [apply firstn_subseq | exact Hsub].
  - rewrite Hk, Hcols. now apply Forall2_firstn.
Qed.

Lemma checked_cells_unchanged_witness :
  exists h kept,
    verified_header_index (remove_top 0 two_row_report) = Some h /\
    subseq kept (skipn (S h) (remove_top 0 two_row_report)) /\
    Forall2
      (fun r_out r_in =>
         forall name,
           In name check_names /\
           In name (columns (mkDF ["Verified"; "Date"] [[Str "Y"; Str "2024-01-01"]])) ->
           cell_at name (columns (mkDF ["Verified"; "Date"] [[Str "Y"; Str "2024-01-01"]]))
                   r_out
           = cell_at name
               (map clean_column_name (nth h (remove_top 0 two_row_report) []))
               r_in)
      (rows (mkDF ["Verified"; "Date"] [[Str "Y"; Str "2024-01-01"]])) kept.
Proof.
  apply (checked_cells_unchanged two_row_report 0 0).
  - intros r r' Hr Hr'. simpl in Hr, Hr'.
    destruct Hr as [<-|[<-|[]]]; destruct Hr' as [<-|[<-|[]]]; reflexivity.
  - reflexivity.
Defined.

(** ** Rows without data *)

Lemma row_has_value_spec (subset cols : list string) (r : row) :
  row_has_value subset cols r = true <->
  exists l x, In l subset /\ In x (cells_under l cols r) /\ x <> NaN.
Proof.
  unfold row_has_value. rewrite existsb_exists. split.
  - intros [l [Hl H]]. apply existsb_exists in H. destruct H as [x [Hx Hn]].
    exists l, x. repeat split; try assumption. intros ->. discriminate.
  - intros [l [x [Hl [Hx Hn]]]]. exists l. split; [assumption|].
    apply existsb_exists. exists x. split; [assumption|]. now destruct x.
Qed.

Example sparse_report_rows :
  process_card_data sparse_report 0 0
  = Ok (mkDF ["Card No."; "Verified"; "Date"; "Payee"; "Charges"]
          [ [Str "001"; Str "Y"; Str "2024-01-01"; Str "Store"; Str "10.00"];
            [Str "002"; NaN; NaN; NaN; Str "5.00"] ]).
Proof. reflexivity. Qed.

(** C6: every row of a table returned by the normaliser has a value that is
    not null in one of the columns "Verified", "Date", "Payee", "Charges" of
    that table (so a table without any of these columns has no row).  In the
    filter itself, for kept columns [existing] among the five desired names
    and a frame with unique labels, as step 10 leaves them, a row whose cells
    in these columns are all null is removed whatever its "Card No.", and a
    row whose "Charges" is not null is kept. *)
Theorem rows_have_data :
  (forall (df : RawTable) (top bottom : nat) (out : DataFrame),
     process_card_data df top bottom = Ok out ->
     forall r, In r (rows out) ->
       exists c, In c check_names /\ In c (columns out) /\
                 cell_at c (columns out) r <> NaN) /\
  (forall (existing : list string) (d : DataFrame) (r : row),
     incl existing desired_cols -> NoDup (columns d) ->
     (forall c, In c check_names -> cell_at c (columns d) r = NaN) ->
     ~ In r (rows (drop_empty_rows existing d))) /\
  (forall (existing : list string) (d : DataFrame) (r : row),
     In r (rows d) -> In "Charges"%string existing ->
     cell_at "Charges" (columns d) r <> NaN ->
     In r (rows (drop_empty_rows existing d))).
Proof.
  split; [|split].
  - intros df top bottom out Hp r Hr.
    destruct (verified_header_index (remove_top top df)) as [h|] eqn:Eh;
      [|unfold process_card_data in Hp; rewrite Eh in Hp; discriminate].
    destruct (process_card_data_ok df top bottom h Eh) as [df9 [_ [Hnd Hp']]].
    rewrite Hp' in Hp. injection Hp as <-.
    destruct (rows_finish bottom df9) as [k Hk]. rewrite Hk in Hr.
    rewrite columns_finish.
    set (cols := columns (keep_final_columns df9)) in *.
    assert (Hcols : cols = existing_cols df9)
      by (apply columns_keep_final_columns; assumption).
    assert (Hnd10 : NoDup cols).
    { rewrite Hcols. apply NoDup_filter, desired_cols_NoDup. }
    assert (Hf : In r (filter (row_has_value (check_cols (existing_cols df9)) cols)
                              (rows (keep_final_columns df9)))).
    { rewrite <- (firstn_skipn k (filter _ _)). apply in_or_app. now left. }
    apply filter_In in Hf. destruct Hf as [_ Hv].
    apply row_has_value_spec in Hv. destruct Hv as [l [x [Hl [Hx Hn]]]].
    apply check_cols_spec in Hl. destruct Hl as [Hl Hne].
    exists l. split; [|split].
    + apply check_name_desired. split; [|assumption].
      now apply existing_cols_present in Hl.
    + now rewrite Hcols.
    + now rewrite <- (cells_under_cell_at l cols r x Hnd10 Hx).
  - intros existing d r Hincl Hnd Hnull Hin.
    unfold drop_empty_rows, dropna_all in Hin. simpl in Hin.
    apply filter_In in Hin. destruct Hin as [_ Hv].
    apply row_has_value_spec in Hv. destruct Hv as [l [x [Hl [Hx Hn]]]].
    apply check_cols_spec in Hl. destruct Hl as [Hl Hne].
    apply Hn. rewrite (cells_under_cell_at l (columns d) r x Hnd Hx).
    apply Hnull. apply check_name_desired. split; [|assumption]. now apply Hincl.
  - intros existing d r Hin Hc Hn.
    unfold drop_empty_rows, dropna_all. simpl.
    apply filter_In. split; [assumption|].
    apply row_has_value_spec.
    exists "Charges"%string, (cell_at "Charges" (columns d) r).
    split; [|split; [|assumption]].
    + apply check_cols_spec. split; [assumption | discriminate].
    + now apply cell_at_cells_under.
Qed.

Lemma rows_have_data_witness :
  (forall r,
     In r [ [Str "001"; Str "Y"; Str "2024-01-01"; Str "Store"; Str "10.00"];
            [Str "002"; NaN; NaN; NaN; Str "5.00"] ] ->
     exists c, In c check_names /\
               In c ["Card No."; "Verified"; "Date"; "Payee"; "Charges"]%string /\
               cell_at c ["Card No."; "Verified"; "Date"; "Payee"; "Charges"]%string r
               <> NaN) /\
  ~ In [Str "002"; NaN; NaN; NaN; NaN]
       (rows (drop_empty_rows desired_cols
                (mkDF ["Card No."; "Verified"; "Date"; "Payee"; "Charges"]
                      [ [Str "002"; NaN; NaN; NaN; NaN];
                        [Str "002"; NaN; NaN; NaN; Str "5.00"] ]))) /\
  In [Str "002"; NaN; NaN; NaN; Str "5.00"]
     (rows (drop_empty_rows desired_cols
              (mkDF ["Card No."; "Verified"; "Date"; "Payee"; "Charges"]
                    [ [Str "002"; NaN; NaN; NaN; NaN];
                      [Str "002"; NaN; NaN; NaN; Str "5.00"] ]))).
Proof.
  destruct rows_have_data as [H1 [H2 H3]].
  split; [|split].
  - exact (H1 sparse_report 0 0 _ sparse_report_rows).
  - apply H2.
    + intros c Hc. exact Hc.
    + exact desired_cols_NoDup.
    + intros c Hc. unfold check_names in Hc. simpl in Hc.
      destruct Hc as [<-|[<-|[<-|[<-|[]]]]]; reflexivity.
  - apply H3.
    + simpl. right. now left.
    + simpl. tauto.
    + discriminate.
Defined.

(** ** From the selection of step 8 to the series of step 9 *)

Lemma cell_at_rename_to (old new : string) (cols : list string) (r : row) :
  old = new \/ ~ In new cols ->
  cell_at new (map (fun c => if String.eqb old c then new else c) cols) r
  = cell_at old cols r.
Proof.
  revert r; induction cols as [|c cols IH]; intros [|x r] H; simpl;
    try reflexivity.
  destruct (String.eqb old c) eqn:E.
  - now rewrite String.eqb_refl.
  - assert (Hc : String.eqb new c = false).
    { destruct H as [<-|H]; [assumption|].
      apply String.eqb_neq. intros ->. apply H. now left. }
    rewrite Hc. apply IH.
    destruct H as [H|H]; [now left | right]. intros Hin. apply H. now right.
Qed.

(** X12: the selected column reaches step 9 under the label "CardHolderName",
    unless another column already carries that label. *)
Lemma selected_column_is_extracted (df : DataFrame) (chosen : string) :
  rectangular df -> NoDup (columns df) ->
  chosen_col df = Some chosen ->
  chosen = "CardHolderName"%string \/ ~ In "CardHolderName"%string (columns df) ->
  exists df9,
    extract_card_no (identify_card_column df) = Ok df9 /\
    series "Card No." df9 = card_no_series (series chosen df).
Proof.
  intros Hrect Hnd Hch Hfree.
  pose proof (chosen_col_is_card_col df chosen Hch) as [Hin _].
  assert (Hcand : forall c, In c (card_cols df) ->
                            c = chosen \/ c <> "CardHolderName"%string).
  { intros c Hc. destruct Hfree as [->|Hfree].
    - destruct (String.eqb_spec c "CardHolderName"); [now left | now right].
    - right. intros ->. apply Hfree.
      unfold card_cols in Hc. now apply filter_In in Hc. }
  assert (Hs : series "CardHolderName" (identify_card_column df) = series chosen df).
  { unfold identify_card_column. rewrite Hch.
    rewrite series_drop_other_card_cols by exact Hcand.
    unfold series, rename_column. simpl. apply map_ext. intros r.
    now apply cell_at_rename_to. }
  assert (Hl : In "CardHolderName"%string (columns (identify_card_column df))).
  { unfold identify_card_column. rewrite Hch.
    rewrite columns_drop_other_card_cols. apply filter_In. split.
    - unfold rename_column. simpl. apply in_map_iff. exists chosen.
      now rewrite String.eqb_refl.
    - apply negb_true_iff. unfold other_card_col.
      destruct (existsb _ (card_cols df)) eqn:E; [|reflexivity].
      apply existsb_exists in E. destruct E as [c [Hc E]].
      apply andb_true_iff in E. destruct E as [E1 E2].
      apply negb_true_iff, String.eqb_neq in E1. apply String.eqb_eq in E2.
      destruct (Hcand c Hc); congruence. }
  rewrite <- Hs. apply series_extract_card_no.
  - now apply identify_card_column_rectangular.
  - now apply identify_card_column_NoDup.
  - exact Hl.
Qed.

(** When the header has both a column named "CardHolderName" and the blank
    column that gets selected, renaming the selected column makes two columns
    of that label, the loop of lines 61-63 drops the label, and step 9 finds
    nothing to extract. *)
Example renamed_column_clash :
  let report := [ [Str "CardHolderName"; NaN; Str "Verified"];
                  [Str "Bob"; Str "CH12"; Str "Y"] ] in
  chosen_col (install_header 0 report) = Some "CardHolderName1"%string /\
  process_card_data report 0 0 = Ok (mkDF ["Verified"] [[Str "Y"]]).
Proof. split; reflexivity. Qed.

(** * Further properties of [process_card_data] *)

(** ** Errors and the header row *)

(** X1: the only error the function can end in is the header error of
    line 22: nothing else in the body raises, and when it is raised no row of
    the scan window mentions "Verified". *)
Theorem only_error_is_header_not_found (df : RawTable) (top bottom : nat)
    (e : error) :
  process_card_data df top bottom = Err e ->
  e = HeaderNotFound /\
  forall i, i < Nat.min 10 (length (remove_top top df)) ->
            ~ mentions_verified (nth i (remove_top top df) []).
Proof.
  intros H.
  destruct (verified_header_index (remove_top top df)) as [h|] eqn:Eh.
  - destruct (process_card_data_ok df top bottom h Eh) as [df9 [_ [_ Hp]]].
    rewrite Hp in H. discriminate.
  - split.
    + unfold process_card_data in H. rewrite Eh in H. now injection H as <-.
    + intros i Hi Hm.
      destruct (header_found (remove_top top df)) as [h [Hh _]];
        [now exists i | congruence].
Qed.

Lemma only_error_is_header_not_found_witness :
  HeaderNotFound = HeaderNotFound /\
  forall i, i < Nat.min 10 (length (remove_top 0 lowercase_report)) ->
            ~ mentions_verified (nth i (remove_top 0 lowercase_report) []).
Proof.
  apply (only_error_is_header_not_found lowercase_report 0 0). reflexivity.
Defined.

Lemma header_row_mentions (df : RawTable) (h : nat) :
  verified_header_index df = Some h ->
  h < Nat.min 10 (length df) /\ mentions_verified (nth h df []).
Proof.
  intros E. unfold verified_header_index in E.
  apply first_index_some in E. destruct E as [Hh [Hp _]].
  rewrite length_firstn in Hh.
  assert (Hw : h < Nat.min 10 (length df)) by lia.
  split; [exact Hw|]. apply row_has_verified_iff.
  rewrite <- (header_window df h Hw). apply Hp.
Qed.

(** X2: the header is the first row of the window that mentions "Verified":
    its index is below 10 and below the row count, the row mentions
    "Verified", and no row above it does. *)
Theorem header_is_first_match (df : RawTable) (h : nat) :
  verified_header_index df = Some h ->
  h < 10 /\ h < length df /\
  mentions_verified (nth h df []) /\
  forall i, i < h -> ~ mentions_verified (nth i df []).
Proof.
  intros E. unfold verified_header_index in E.
  apply first_index_some in E. destruct E as [Hh [Hp Hlt]].
  rewrite length_firstn in Hh.
  assert (Hw : h < Nat.min 10 (length df)) by lia.
  split; [lia|]. split; [lia|]. split.
  - apply row_has_verified_iff. rewrite <- (header_window df h Hw). apply Hp.
  - intros i Hi. apply row_has_verified_false.
    rewrite <- (header_window df i) by lia. now apply Hlt.
Qed.

Lemma header_is_first_match_witness :
  2 < 10 /\ 2 < length titled_scenario /\
  mentions_verified (nth 2 titled_scenario []) /\
  forall i, i < 2 -> ~ mentions_verified (nth i titled_scenario []).
Proof.
  apply (header_is_first_match titled_scenario 2). reflexivity.
Defined.

Lemma skipn_cons_nth {A : Type} (d : A) (n : nat) (l : list A) :
  n < length l -> skipn n l = nth n l d :: skipn (S n) l.
Proof.
  revert l; induction n as [|n IH]; intros [|x l] H; simpl in *; try lia.
  - reflexivity.
  - apply IH. lia.
Qed.

(** X3: the rows above the header play no part: with the header found at
    index [h] after the top trim, the result is the result on the report cut
    just above the header, with no top trim. *)
Theorem rows_above_header_are_ignored (df : RawTable) (top bottom h : nat) :
  verified_header_index (remove_top top df) = Some h ->
  process_card_data df top bottom
  = process_card_data (remove_top (top + h) df) 0 bottom.
Proof.
  intros E.
  destruct (header_row_mentions _ h E) as [Hlen Hm].
  assert (Hcut : remove_top (top + h) df
                 = nth h (remove_top top df) [] :: skipn (S h) (remove_top top df)).
  { unfold remove_top. rewrite Nat.add_comm, <- skipn_skipn.
    apply skipn_cons_nth. unfold remove_top in Hlen. lia. }
  assert (E0 : verified_header_index (remove_top (top + h) df) = Some 0).
  { rewrite Hcut. unfold verified_header_index. simpl.
    apply row_has_verified_iff in Hm. now rewrite Hm. }
  unfold process_card_data at 1 2.
  change (remove_top 0 (remove_top (top + h) df)) with (remove_top (top + h) df).
  rewrite E, E0. unfold install_header, set_header. now rewrite Hcut.
Qed.

Lemma rows_above_header_are_ignored_witness :
  process_card_data titled_scenario 0 0
  = process_card_data (remove_top (0 + 2) titled_scenario) 0 0.
Proof.
  apply (rows_above_header_are_ignored titled_scenario 0 0 2). reflexivity.
Defined.

(** ** Column names: steps 4 to 6 *)

Lemma name_blanks_nth (cols : list string) :
  forall (k i : nat),
    i < length cols ->
    nth i (name_blanks k cols) EmptyString
    = if String.eqb (nth i cols EmptyString) ""
      then ("CardHolderName"
              ++ Py.str_of_nat (S (k + label_count "" (firstn i cols))))%string
      else nth i cols EmptyString.
Proof.
  unfold label_count.
  induction cols as [|c cols IH]; intros k i Hi; simpl in Hi; [lia|].
  destruct i as [|i].
  - simpl. destruct (String.eqb c "") eqn:E; simpl; [|reflexivity].
    now rewrite Nat.add_0_r.
  - assert (Hi' : i < length cols) by lia.
    cbn [name_blanks firstn filter nth].
    rewrite (String.eqb_sym "" c).
    destruct (String.eqb c "") eqn:E; cbn [nth length].
    + rewrite (IH (S k) i Hi'). now rewrite Nat.add_succ_r.
    + apply (IH k i Hi').
Qed.

(** X4: step 5 keeps the number and the positions of the columns, leaves
    every non-blank name as it is, and names a blank column
    "CardHolderName" followed by the count of the blank columns up to and
    including it, whatever its position. *)
Theorem blank_columns_are_numbered (cols : list string) (i : nat) :
  i < length cols ->
  length (name_blanks 0 cols) = length cols /\
  (nth i cols EmptyString <> EmptyString ->
   nth i (name_blanks 0 cols) EmptyString = nth i cols EmptyString) /\
  (nth i cols EmptyString = EmptyString ->
   nth i (name_blanks 0 cols) EmptyString
   = ("CardHolderName"
        ++ Py.str_of_nat (S (label_count "" (firstn i cols))))%string).
Proof.
  intros Hi. split; [apply name_blanks_length|].
  rewrite (name_blanks_nth cols 0 i Hi). simpl. split.
  - intros H. apply String.eqb_neq in H. now rewrite H.
  - intros ->. reflexivity.
Qed.

Lemma blank_columns_are_numbered_witness :
  nth 3 (name_blanks 0 [""; "Verified"; "Date"; ""; "Charges"]%string) EmptyString
  = "CardHolderName2"%string.
Proof.
  destruct (blank_columns_are_numbered
              [""; "Verified"; "Date"; ""; "Charges"]%string 3) as [_ [_ H]].
  - simpl. lia.
  - now rewrite H.
Defined.

Lemma lstrip_fixed (s : string) :
  match s with EmptyString => True | String c _ => Py.is_space c = false end ->
  Py.lstrip s = s.
Proof. destruct s as [|c s]; simpl; [reflexivity | now intros ->]. Qed.

Lemma lstrip_head (s : string) :
  match Py.lstrip s with
  | EmptyString => True
  | String c _ => Py.is_space c = false
  end.
Proof.
  induction s as [|c s IH]; simpl; [exact I|].
  destruct (Py.is_space c) eqn:E; [exact IH | exact E].
Qed.

Lemma rstrip_head (s : string) :
  match s with EmptyString => True | String c _ => Py.is_space c = false end ->
  match Py.rstrip s with
  | EmptyString => True
  | String c _ => Py.is_space c = false
  end.
Proof.
  destruct s as [|c s]; simpl; [trivial|]. intros H.
  destruct (Py.rstrip s); [rewrite H|]; exact H.
Qed.

Lemma rstrip_cons (c : ascii) (s : string) :
  Py.rstrip (String c s)
  = match Py.rstrip s with
    | EmptyString => if Py.is_space c then EmptyString else String c EmptyString
    | r => String c r
    end.
Proof. reflexivity. Qed.

Lemma rstrip_rstrip (s : string) : Py.rstrip (Py.rstrip s) = Py.rstrip s.
Proof.
  induction s as [|c s IH]; [reflexivity|].
  rewrite rstrip_cons.
  destruct (Py.rstrip s) as [|d r] eqn:E.
  - destruct (Py.is_space c) eqn:Ec; [reflexivity|].
    rewrite rstrip_cons. simpl. now rewrite Ec.
  - rewrite rstrip_cons, IH. reflexivity.
Qed.

Lemma strip_strip (s : string) : Py.strip (Py.strip s) = Py.strip s.
Proof.
  unfold Py.strip.
  rewrite (lstrip_fixed (Py.rstrip (Py.lstrip s))).
  - apply rstrip_rstrip.
  - apply rstrip_head, lstrip_head.
Qed.

Lemma strip_no_space (s : string) :
  all_chars (fun c => negb (Py.is_space c)) s = true -> Py.strip s = s.
Proof.
  intros H. unfold Py.strip.
  assert (Hl : Py.lstrip s = s).
  { apply lstrip_fixed. destruct s as [|c s]; [exact I|].
    simpl in H. apply andb_true_iff in H. now apply negb_true_iff. }
  rewrite Hl. clear Hl.
  induction s as [|c s IH]; simpl in *; [reflexivity|].
  apply andb_true_iff in H. destruct H as [Hc Hs].
  rewrite (IH Hs). apply negb_true_iff in Hc.
  destruct s; [now rewrite Hc | reflexivity].
Qed.

Lemma all_chars_app (p : ascii -> bool) (s t : string) :
  all_chars p (s ++ t) = all_chars p s && all_chars p t.
Proof.
  induction s as [|c s IH]; simpl; [reflexivity|].
  now rewrite IH, andb_assoc.
Qed.

Lemma str_of_nat_no_space (n : nat) :
  all_chars (fun c => negb (Py.is_space c)) (Py.str_of_nat n) = true.
Proof.
  unfold Py.str_of_nat.
  assert (H : forall d, all_chars (fun c => negb (Py.is_space c))
                                  (NilEmpty.string_of_uint d) = true).
  { induction d; simpl; try assumption; reflexivity. }
  destruct (Nat.to_uint n); try apply (H (Decimal.D0 _)); try reflexivity;
    simpl; apply H.
Qed.

Lemma name_blanks_clean (cols : list string) :
  Forall (fun c => Py.strip c = c) cols ->
  forall k,
    Forall (fun c => Py.strip c = c /\ c <> EmptyString) (name_blanks k cols).
Proof.
  induction 1 as [|c cols Hc _ IH]; intros k; cbn [name_blanks]; [constructor|].
  destruct (String.eqb c "") eqn:E; constructor; try apply IH.
  - split; [|discriminate]. apply strip_no_space.
    rewrite all_chars_app. rewrite str_of_nat_no_space. reflexivity.
  - split; [assumption|]. now apply String.eqb_neq.
Qed.

Lemma name_blanks_no_blank (cols : list string) (k : nat) :
  ~ In EmptyString cols -> name_blanks k cols = cols.
Proof.
  revert k; induction cols as [|c cols IH]; intros k H; simpl; [reflexivity|].
  destruct (String.eqb c "") eqn:E.
  - apply String.eqb_eq in E. subst c. exfalso. apply H. now left.
  - f_equal. apply IH. intros Hin. apply H. now right.
Qed.

(** X5: steps 4 and 5 are idempotent: run again on the names they produced,
    put back as a header row, they change nothing. *)
Theorem header_cleaning_is_idempotent (header : list cell) :
  name_blanks 0
    (map clean_column_name
       (map Str (name_blanks 0 (map clean_column_name header))))
  = name_blanks 0 (map clean_column_name header).
Proof.
  set (cols := name_blanks 0 (map clean_column_name header)).
  assert (H : Forall (fun c => Py.strip c = c /\ c <> EmptyString) cols).
  { apply name_blanks_clean. apply Forall_map, Forall_forall. intros c _.
    unfold clean_column_name. destruct (isnull c); [reflexivity | apply strip_strip]. }
  rewrite Forall_forall in H.
  assert (E : map clean_column_name (map Str cols) = cols).
  { rewrite map_map. rewrite <- (map_id cols) at 2. apply map_ext_in.
    intros c Hc. unfold clean_column_name. simpl. now apply H. }
  rewrite E. apply name_blanks_no_blank. intros Hin.
  destruct (H _ Hin) as [_ Hne]. now apply Hne.
Qed.

Lemma dedup_members (seen cols : list string) (l : string) :
  In l (select (map negb (duplicated_from seen cols)) cols)
  <-> In l cols /\ ~ In l seen.
Proof.
  revert seen; induction cols as [|c cols IH]; intros seen; simpl; [tauto|].
  destruct (has_column c seen) eqn:E; simpl; rewrite IH; simpl.
  - apply has_column_In in E. split.
    + intros [H1 H2]. split; [now right|]. intros H. apply H2. now right.
    + intros [[->|H1] H2]; [contradiction|]. split; [assumption|].
      intros [->|H]; contradiction.
  - apply has_column_not_In in E. split.
    + intros [<-|[H1 H2]]; [split; [now left | assumption]|].
      split; [now right|]. intros H. apply H2. now right.
    + intros [[->|H1] H2]; [now left|].
      destruct (String.eqb_spec c l) as [->|Hne]; [now left | right].
      split; [assumption|]. intros [->|H]; contradiction.
Qed.

Lemma select_subseq {A : Type} (mask : list bool) (l : list A) :
  subseq (select mask l) l.
Proof.
  assert (Hnil : forall l' : list A, subseq [] l').
  { induction l'; now constructor. }
  revert mask; induction l as [|x l IH]; intros [|b mask]; simpl;
    try apply Hnil.
  destruct b; [apply subseq_keep | apply subseq_skip]; apply IH.
Qed.

Lemma filter_map_S (f : nat -> bool) (l : list nat) :
  filter f (map S l) = map S (filter (fun i => f (S i)) l).
Proof.
  induction l as [|i l IH]; simpl; [reflexivity|].
  destruct (f (S i)); simpl; now rewrite IH.
Qed.

(** Selecting by a mask is reading the positions where the mask is true. *)
Lemma select_positions {A : Type} (d : A) (mask : list bool) (l : list A) :
  length mask <= length l ->
  select mask l
  = map (fun i => nth i l d)
        (filter (fun i => nth i mask false) (seq 0 (length mask))).
Proof.
  revert l; induction mask as [|b mask IH]; intros [|x l] H; simpl in H;
    try reflexivity; try lia.
  cbn [select length seq filter nth].
  rewrite <- seq_shift, filter_map_S, (IH l) by lia.
  destruct b; cbn [map nth]; rewrite map_map; reflexivity.
Qed.

Lemma duplicated_from_length (seen cols : list string) :
  length (duplicated_from seen cols) = length cols.
Proof.
  revert seen; induction cols as [|c cols IH]; intros seen; simpl;
    [reflexivity | now rewrite IH].
Qed.

Lemma duplicated_from_nth (cols : list string) :
  forall (seen : list string) (i : nat),
    i < length cols ->
    nth i (duplicated_from seen cols) false
    = has_column (nth i cols EmptyString) (firstn i cols)
      || has_column (nth i cols EmptyString) seen.
Proof.
  induction cols as [|c cols IH]; intros seen i Hi; simpl in Hi; [lia|].
  destruct i as [|i]; [reflexivity|].
  cbn [duplicated_from nth firstn]. rewrite IH by lia.
  unfold has_column. cbn [existsb].
  destruct (String.eqb (nth i cols EmptyString) c);
    destruct (existsb _ (firstn i cols)); reflexivity.
Qed.

(** The mask of step 6 is true exactly at the positions of first
    occurrence. *)
Lemma dedup_mask_positions (cols : list string) :
  filter (fun i => nth i (map negb (duplicated cols)) false)
         (seq 0 (length (map negb (duplicated cols))))
  = first_occurrence_positions cols.
Proof.
  unfold first_occurrence_positions, duplicated.
  rewrite length_map, duplicated_from_length.
  apply filter_ext_in. intros i Hi. apply in_seq in Hi.
  change false with (negb true). rewrite map_nth.
  rewrite nth_indep with (d' := false)
    by (rewrite duplicated_from_length; lia).
  rewrite duplicated_from_nth by lia. now rewrite orb_false_r.
Qed.

(** X6: step 6 keeps the columns at the positions where a label occurs for
    the first time, in that order: the labels of the result are the labels
    at those positions and, on a frame with one cell per column, every row of
    the result is the row read at those positions.  So every label is left
    exactly once, none is lost, no row is lost, and under every label the
    cells are those of the leftmost column that carried it. *)
Theorem duplicate_columns_keep_leftmost (df : DataFrame) :
  columns (drop_duplicate_columns df)
  = map (fun i => nth i (columns df) EmptyString)
        (first_occurrence_positions (columns df)) /\
  (rectangular df ->
   rows (drop_duplicate_columns df)
   = map (fun r => map (fun i => nth i r NaN)
                       (first_occurrence_positions (columns df)))
         (rows df)) /\
  NoDup (columns (drop_duplicate_columns df)) /\
  subseq (columns (drop_duplicate_columns df)) (columns df) /\
  (forall l, In l (columns (drop_duplicate_columns df)) <-> In l (columns df)) /\
  length (rows (drop_duplicate_columns df)) = length (rows df) /\
  (forall name, series name (drop_duplicate_columns df) = series name df).
Proof.
  unfold drop_duplicate_columns, loc_columns. simpl.
  split; [|split].
  { rewrite (select_positions EmptyString).
    - now rewrite dedup_mask_positions.
    - unfold duplicated. now rewrite length_map, duplicated_from_length. }
  { intros Hrect. unfold rectangular in Hrect. rewrite Forall_forall in Hrect.
    apply map_ext_in. intros r Hr. rewrite (select_positions NaN).
    - now rewrite dedup_mask_positions.
    - unfold duplicated. rewrite length_map, duplicated_from_length.
      rewrite (Hrect r Hr). apply Nat.le_refl. }
  unfold duplicated.
  split; [apply (dedup_NoDup [])|]. split; [|split; [|split]].
  - apply select_subseq.
  - intros l. rewrite dedup_members. simpl. tauto.
  - apply length_map.
  - intros name. unfold series. simpl. rewrite map_map. apply map_ext.
    intros r. apply cell_at_dedup. intros [].
Qed.

Lemma duplicate_columns_keep_leftmost_witness :
  drop_duplicate_columns twice_dated_frame
  = mkDF ["Date"; "Payee"] [ [Str "2024-01-01"; Str "Store"] ].
Proof.
  destruct (duplicate_columns_keep_leftmost twice_dated_frame)
    as [Hc [Hr _]].
  assert (R : rectangular twice_dated_frame) by (repeat constructor).
  specialize (Hr R).
  destruct (drop_duplicate_columns twice_dated_frame) as [cols rws].
  simpl in Hc, Hr. now rewrite Hc, Hr.
Defined.

(** ** The identifier column *)

Lemma ffill_from_filled {A : Type} (x : A) (l : list (option A)) (i : nat) :
  i < length l -> nth i (ffill_from (Some x) l) None <> None.
Proof.
  revert x i; induction l as [|[y|] l IH]; intros x i Hi; simpl in *; [lia| |];
    destruct i as [|i]; try discriminate; apply IH; lia.
Qed.

Lemma ffill_from_no_gap {A : Type} (l : list (option A)) :
  forall (last : option A) (i j : nat),
    i <= j -> j < length l ->
    nth i (ffill_from last l) None <> None ->
    nth j (ffill_from last l) None <> None.
Proof.
  induction l as [|a l IH]; intros last i j Hij Hj Hi; simpl in Hj; [lia|].
  destruct j as [|j]; [now replace i with 0 in Hi by lia|].
  destruct i as [|i].
  - destruct a as [x|]; simpl in *.
    + apply ffill_from_filled. lia.
    + destruct last as [x|]; [|congruence]. apply ffill_from_filled. lia.
  - destruct a as [x|]; simpl in *; apply (IH _ i j); try lia; assumption.
Qed.

(** X7: the forward fill leaves no gap: once a position of the "Card No."
    series has a value, every later position has one. *)
Theorem card_no_has_no_gap (cells : list cell) (i j : nat) :
  i <= j -> j < length cells ->
  nth i (card_no_series cells) NaN <> NaN ->
  nth j (card_no_series cells) NaN <> NaN.
Proof.
  intros Hij Hj. unfold card_no_series.
  change NaN with (cell_of_option None). rewrite !map_nth.
  intros Hi Hn. apply Hi.
  assert (H : nth j (ffill (map extract_digits cells)) None <> None).
  { apply (ffill_from_no_gap _ None i j Hij); [now rewrite length_map|].
    intros E. apply Hi. unfold ffill. now rewrite E. }
  destruct (nth j (ffill (map extract_digits cells)) None); [discriminate | congruence].
Qed.

Lemma card_no_has_no_gap_witness :
  nth 3 (card_no_series [NaN; Str "CH12"; NaN; Str "none"]) NaN <> NaN.
Proof.
  apply (card_no_has_no_gap [NaN; Str "CH12"; NaN; Str "none"] 1 3).
  - lia.
  - simpl. lia.
  - discriminate.
Defined.

Lemma ffill_from_twice {A : Type} (l : list (option A)) :
  forall last : option A,
    ffill_from last (ffill_from last l) = ffill_from last l.
Proof.
  induction l as [|[x|] l IH]; intros last; simpl; [reflexivity| |].
  - now rewrite IH.
  - destruct last as [x|]; simpl; now rewrite IH.
Qed.

Lemma ffill_from_values {A : Type} (P : A -> Prop) (l : list (option A)) :
  forall last : option A,
    (forall x, last = Some x -> P x) ->
    (forall x, In (Some x) l -> P x) ->
    forall x, In (Some x) (ffill_from last l) -> P x.
Proof.
  induction l as [|[y|] l IH]; intros last Hlast Hl x Hx; simpl in Hx;
    [destruct Hx| |].
  - destruct Hx as [[= ->]|Hx]; [apply Hl; now left|].
    apply (IH (Some y)); try assumption.
    + intros z [= <-]. apply Hl. now left.
    + intros z Hz. apply Hl. now right.
  - destruct Hx as [Hx|Hx]; [now apply Hlast|].
    apply (IH last); try assumption. intros z Hz. apply Hl. now right.
Qed.

Lemma append_empty (s : string) : (s ++ "")%string = s.
Proof. induction s as [|c s IH]; simpl; [reflexivity | now rewrite IH]. Qed.

Lemma digits_search (d : string) :
  d <> EmptyString -> all_chars Py.is_digit d = true ->
  Py.search_digits d = Some d.
Proof.
  intros Hne Hd. apply search_digits_some.
  exists EmptyString, EmptyString. simpl. rewrite append_empty.
  split; [reflexivity|]. split; [reflexivity|].
  split; [assumption|]. split; [assumption | exact I].
Qed.

(** Every cell of the series of line 67 is missing or a digit string. *)
Lemma card_no_series_cells (cells : list cell) (c : cell) :
  In c (card_no_series cells) -> card_number c.
Proof.
  unfold card_no_series. intros H. apply in_map_iff in H.
  destruct H as [[d|] [<- H]]; [|now left].
  right. exists d. split; [reflexivity|].
  revert d H. unfold ffill.
  apply (ffill_from_values
           (fun d => d <> EmptyString /\ all_chars Py.is_digit d = true)).
  - discriminate.
  - intros d H. apply in_map_iff in H. destruct H as [c [E _]].
    apply search_digits_some in E.
    destruct E as [pre [post [_ [_ [Hne [Hd _]]]]]]. now split.
Qed.

(** X8: extracting and filling again changes nothing: the pass of line 67
    applied to its own result returns it. *)
Theorem card_no_series_is_idempotent (cells : list cell) :
  card_no_series (card_no_series cells) = card_no_series cells.
Proof.
  assert (H : map extract_digits (card_no_series cells)
              = ffill (map extract_digits cells)).
  { pose proof (card_no_series_cells cells) as Hc.
    unfold card_no_series in *.
    induction (ffill (map extract_digits cells)) as [|v l IH]; simpl;
      [reflexivity|].
    rewrite IH by (intros c Hin; apply Hc; now right). f_equal.
    destruct (Hc (cell_of_option v) (or_introl eq_refl)) as [E | [d [E [Hne Hd]]]].
    - destruct v; [discriminate | reflexivity].
    - destruct v as [d'|]; [|discriminate]. injection E as ->.
      unfold extract_digits. simpl. now apply digits_search. }
  unfold card_no_series at 1. rewrite H. unfold ffill.
  now rewrite ffill_from_twice.
Qed.

Lemma filter_map_agree (ren : string -> string) (p q : string -> bool)
    (l : list string) :
  (forall c, In c l -> p (ren c) = q c) ->
  (forall c, In c l -> q c = false -> ren c = c) ->
  filter (fun x => negb (p x)) (map ren l) = filter (fun c => negb (q c)) l.
Proof.
  induction l as [|c l IH]; intros H K; simpl; [reflexivity|].
  rewrite (H c (or_introl eq_refl)).
  rewrite IH;
    [| intros x Hx; apply H; now right | intros x Hx; apply K; now right].
  destruct (q c) eqn:E; simpl; [reflexivity|].
  now rewrite (K c (or_introl eq_refl) E).
Qed.

(** X9: when the column selected in step 8 is not named "CardHolderName" and
    the header has a column of that name, step 8 leaves no column whose name
    starts with "CardHolderName", the selected one included, and step 9 does
    nothing. *)
Theorem selected_column_lost_on_name_clash (df : DataFrame) (chosen : string) :
  chosen_col df = Some chosen ->
  chosen <> "CardHolderName"%string ->
  In "CardHolderName"%string (columns df) ->
  columns (identify_card_column df)
  = filter (fun c => negb (Py.startswith c "CardHolderName")) (columns df) /\
  extract_card_no (identify_card_column df) = Ok (identify_card_column df).
Proof.
  intros Hch Hne Hin.
  pose proof (chosen_col_is_card_col df chosen Hch) as [_ Hp].
  assert (Hcols : columns (identify_card_column df)
                  = filter (fun c => negb (Py.startswith c "CardHolderName"))
                           (columns df)).
  { unfold identify_card_column. rewrite Hch.
    rewrite columns_drop_other_card_cols. unfold rename_column. simpl.
    assert (Hother : forall c, In c (columns df) ->
              other_card_col chosen (card_cols df)
                (if String.eqb chosen c then "CardHolderName"%string else c)
              = Py.startswith c "CardHolderName").
    { intros c Hc. destruct (String.eqb chosen c) eqn:E.
      - apply String.eqb_eq in E. subst c. rewrite Hp.
        apply existsb_exists. exists "CardHolderName"%string. split.
        + apply filter_In. now split.
        + apply andb_true_iff. split; [|reflexivity].
          apply negb_true_iff, String.eqb_neq. congruence.
      - destruct (Py.startswith c "CardHolderName") eqn:Ec.
        + apply existsb_exists. exists c. split.
          * apply filter_In. now split.
          * apply andb_true_iff. split; [|apply String.eqb_refl].
            apply negb_true_iff. now rewrite String.eqb_sym.
        + destruct (other_card_col chosen (card_cols df) c) eqn:Eo; [|reflexivity].
          apply existsb_exists in Eo. destruct Eo as [x [Hx Ex]].
          apply andb_true_iff in Ex. destruct Ex as [_ Ex].
          apply String.eqb_eq in Ex. subst x.
          apply filter_In in Hx. destruct Hx as [_ Hx]. congruence. }
    apply filter_map_agree; [exact Hother|].
    intros c _ Ec. destruct (String.eqb chosen c) eqn:E; [|reflexivity].
    apply String.eqb_eq in E. subst c. congruence. }
  split; [exact Hcols|].
  unfold extract_card_no.
  destruct (has_column "CardHolderName" (columns (identify_card_column df))) eqn:E;
    [|reflexivity].
  apply has_column_In in E. rewrite Hcols in E. apply filter_In in E.
  destruct E as [_ E]. discriminate.
Qed.

Lemma selected_column_lost_on_name_clash_witness :
  columns (identify_card_column clash_frame) = ["Verified"]%string /\
  extract_card_no (identify_card_column clash_frame)
  = Ok (identify_card_column clash_frame).
Proof.
  apply (selected_column_lost_on_name_clash clash_frame "CardHolderName1").
  - reflexivity.
  - discriminate.
  - now left.
Defined.

Lemma selected_column_is_extracted_witness :
  exists df9,
    extract_card_no (identify_card_column selected_frame) = Ok df9 /\
    series "Card No." df9
    = card_no_series (series "CardHolderName1" selected_frame).
Proof.
  apply (selected_column_is_extracted selected_frame "CardHolderName1").
  - repeat constructor.
  - repeat (constructor; [simpl; intuition discriminate|]). constructor.
  - reflexivity.
  - right. simpl. intuition discriminate.
Defined.

(** ** The result as a whole *)

Lemma rows_finish_from (n : nat) (df : DataFrame) (r : row) :
  In r (rows (finish n df)) -> In r (rows (keep_final_columns df)).
Proof.
  intros H. destruct (rows_finish n df) as [k Hk]. rewrite Hk in H.
  assert (Hf : In r (filter (row_has_value (check_cols (existing_cols df))
                                           (columns (keep_final_columns df)))
                            (rows (keep_final_columns df)))).
  { rewrite <- (firstn_skipn k (filter _ _)). apply in_or_app. now left. }
  now apply filter_In in Hf.
Qed.

(** X10: on a rectangular report the result is rectangular: every row has
    exactly one cell per column of the result. *)
Theorem output_is_rectangular (df : RawTable) (top bottom : nat)
    (out : DataFrame) :
  rectangular_table df ->
  process_card_data df top bottom = Ok out ->
  rectangular out.
Proof.
  intros Ht Hp.
  destruct (verified_header_index (remove_top top df)) as [h|] eqn:Eh;
    [|unfold process_card_data in Hp; rewrite Eh in Hp; discriminate].
  destruct (process_card_data_ok df top bottom h Eh) as [df9 [E9 [Hnd Hp']]].
  rewrite Hp' in Hp. injection Hp as <-.
  destruct (frame_before_projection df top h df9 Ht Eh E9) as [R9 _].
  unfold rectangular. apply Forall_forall. intros r Hr.
  apply rows_finish_from in Hr.
  rewrite columns_finish, (columns_keep_final_columns df9 Hnd).
  unfold keep_final_columns, getitem_list in Hr. simpl in Hr.
  apply in_map_iff in Hr. destruct Hr as [r9 [<- Hr9]].
  unfold rectangular in R9. rewrite Forall_forall in R9.
  rewrite projected_row.
  - apply length_map.
  - assumption.
  - intros l Hl. now apply existing_cols_present in Hl.
  - rewrite (R9 r9 Hr9). apply Nat.le_refl.
Qed.

Lemma output_is_rectangular_witness : rectangular scenario_output.
Proof.
  apply (output_is_rectangular titled_scenario 0 0).
  - intros r r' Hr Hr'. simpl in Hr, Hr'.
    repeat (destruct Hr as [<-|Hr]);
      repeat (destruct Hr' as [<-|Hr']); try reflexivity; contradiction.
  - reflexivity.
Defined.

Lemma extract_card_no_has_card_no (df df9 : DataFrame) :
  In "CardHolderName"%string (columns df) ->
  extract_card_no df = Ok df9 ->
  In "Card No."%string (columns df9).
Proof.
  intros Hin. unfold extract_card_no.
  rewrite (proj2 (has_column_In _ _) Hin).
  destruct (1 <? label_count "CardHolderName" (columns df)); [discriminate|].
  destruct (1 <? label_count "Card No." (columns df)); [discriminate|].
  intros [= <-]. rewrite columns_drop_column. apply filter_In.
  split; [|reflexivity]. rewrite columns_setitem.
  destruct (has_column "Card No." (columns df)) eqn:E.
  - now apply has_column_In.
  - apply in_or_app. right. now left.
Qed.

(** X11: whenever step 9 runs (the frame of step 8 has a column labelled
    "CardHolderName"), the result has a "Card No." column and each of its
    cells is missing or a non-empty string of digits. *)
Theorem card_no_cells_are_digit_strings (df : RawTable) (top bottom h : nat)
    (out : DataFrame) :
  rectangular_table df ->
  verified_header_index (remove_top top df) = Some h ->
  In "CardHolderName"%string
     (columns (identify_card_column (install_header h (remove_top top df)))) ->
  process_card_data df top bottom = Ok out ->
  In "Card No."%string (columns out) /\
  forall r, In r (rows out) -> card_number (cell_at "Card No." (columns out) r).
Proof.
  intros Ht Eh Hin Hp.
  destruct (process_card_data_ok df top bottom h Eh) as [df9 [E9 [Hnd Hp']]].
  rewrite Hp' in Hp. injection Hp as <-.
  destruct (frame_before_projection df top h df9 Ht Eh E9) as [R9 _].
  set (df8 := identify_card_column (install_header h (remove_top top df))) in *.
  assert (R8 : rectangular df8).
  { apply identify_card_column_rectangular, install_header_rectangular.
    - now apply rectangular_remove_top.
    - now apply verified_header_index_lt. }
  assert (N8 : NoDup (columns df8))
    by apply identify_card_column_NoDup, install_header_NoDup.
  destruct (series_extract_card_no df8 R8 N8 Hin) as [df9' [E9' S9]].
  rewrite E9 in E9'. injection E9' as <-.
  assert (Hex : In "Card No."%string (existing_cols df9)).
  { apply existing_cols_present. split; [now left|].
    now apply (extract_card_no_has_card_no df8). }
  rewrite columns_finish, (columns_keep_final_columns df9 Hnd).
  split; [assumption|].
  intros r Hr. apply rows_finish_from in Hr.
  apply (card_no_series_cells (series "CardHolderName" df8)).
  rewrite <- S9, <- (keep_final_columns_series "Card No." df9 Hnd R9 Hex).
  unfold series. rewrite (columns_keep_final_columns df9 Hnd).
  now apply in_map.
Qed.

Lemma card_no_cells_are_digit_strings_witness :
  In "Card No."%string (columns scenario_output) /\
  forall r, In r (rows scenario_output) ->
            card_number (cell_at "Card No." (columns scenario_output) r).
Proof.
  apply (card_no_cells_are_digit_strings titled_scenario 0 0 2).
  - intros r r' Hr Hr'. simpl in Hr, Hr'.
    repeat (destruct Hr as [<-|Hr]);
      repeat (destruct Hr' as [<-|Hr']); try reflexivity; contradiction.
  - reflexivity.
  - vm_compute. now left.
  - reflexivity.
Defined.

(** ** Which columns reach the result *)

Lemma name_blanks_members (name : string) (k : nat) (cols : list string) :
  In name check_names ->
  (In name (name_blanks k cols) <-> In name cols).
Proof.
  intros Hn. revert k; induction cols as [|c cols IH]; intros k;
    cbn [name_blanks]; [tauto|].
  destruct (String.eqb c "") eqn:E; simpl; rewrite IH; [|tauto].
  apply String.eqb_eq in E. subst c.
  split; (intros [H|H]; [|now right]); exfalso;
    check_cases Hn; discriminate H.
Qed.

Lemma install_header_members (name : string) (h : nat) (t : RawTable) :
  In name check_names ->
  (In name (columns (install_header h t))
   <-> In name (map clean_column_name (nth h t []))).
Proof.
  intros Hn. unfold install_header, drop_record_column.
  set (d := drop_duplicate_columns _).
  assert (H : In name (columns d)
              <-> In name (map clean_column_name (nth h t []))).
  { unfold d, drop_duplicate_columns, loc_columns, duplicated,
      rename_blank_columns, set_header. simpl.
    rewrite dedup_members, (name_blanks_members name 0 _ Hn). simpl. tauto. }
  destruct (has_column "Record#" (columns d)); [|assumption].
  rewrite columns_drop_column, filter_In, H.
  split; [tauto|]. intros K. split; [assumption|].
  check_cases Hn; reflexivity.
Qed.

Lemma identify_card_column_members (name : string) (df : DataFrame) :
  In name check_names ->
  (In name (columns (identify_card_column df)) <-> In name (columns df)).
Proof.
  intros Hn. unfold identify_card_column.
  destruct (chosen_col df) as [chosen|] eqn:E; [|tauto].
  apply chosen_col_is_card_col in E. destruct E as [_ Hp].
  pose proof (check_name_not_card name Hn) as Hq.
  assert (Hne : chosen <> name) by (intros ->; congruence).
  assert (Hkeep : other_card_col chosen (card_cols df) name = false).
  { destruct (other_card_col chosen (card_cols df) name) eqn:Eo; [|reflexivity].
    apply existsb_exists in Eo. destruct Eo as [x [Hx Ex]].
    apply andb_true_iff in Ex. destruct Ex as [_ Ex].
    apply String.eqb_eq in Ex. subst x.
    apply filter_In in Hx. destruct Hx as [_ Hx]. congruence. }
  rewrite columns_drop_other_card_cols, filter_In, Hkeep.
  unfold rename_column. simpl. rewrite in_map_iff. split.
  - intros [[c [Hc Hin]] _]. destruct (String.eqb chosen c) eqn:Ec.
    + exfalso. subst name. discriminate Hq.
    + now subst c.
  - intros Hin. split; [|reflexivity]. exists name. split; [|assumption].
    apply String.eqb_neq in Hne. now rewrite Hne.
Qed.

Lemma extract_card_no_members (name : string) (df df9 : DataFrame) :
  In name check_names ->
  extract_card_no df = Ok df9 ->
  (In name (columns df9) <-> In name (columns df)).
Proof.
  intros Hn. unfold extract_card_no.
  destruct (has_column "CardHolderName" (columns df)); [|intros [= <-]; tauto].
  destruct (1 <? label_count "CardHolderName" (columns df)); [discriminate|].
  destruct (1 <? label_count "Card No." (columns df)); [discriminate|].
  intros [= <-]. rewrite columns_drop_column, filter_In, columns_setitem.
  assert (H1 : negb (String.eqb "CardHolderName" name) = true)
    by (check_cases Hn; reflexivity).
  rewrite H1.
  destruct (has_column "Card No." (columns df)); [tauto|].
  rewrite in_app_iff. simpl. split; [|tauto].
  intros [[H|[H|[]]] _]; [assumption|].
  exfalso. check_cases Hn; discriminate H.
Qed.

(** X13: a column "Verified", "Date", "Payee" or "Charges" is in the result
    exactly when some cell of the header row, cleaned, is that name. *)
Theorem data_column_kept_iff_in_header (df : RawTable) (top bottom h : nat)
    (out : DataFrame) (name : string) :
  verified_header_index (remove_top top df) = Some h ->
  process_card_data df top bottom = Ok out ->
  In name check_names ->
  (In name (columns out)
   <-> exists c, In c (nth h (remove_top top df) []) /\
                 clean_column_name c = name).
Proof.
  intros Eh Hp Hn.
  destruct (process_card_data_ok df top bottom h Eh) as [df9 [E9 [Hnd Hp']]].
  rewrite Hp' in Hp. injection Hp as <-.
  rewrite columns_finish, (columns_keep_final_columns df9 Hnd).
  rewrite existing_cols_present.
  rewrite (extract_card_no_members name _ df9 Hn E9).
  rewrite (identify_card_column_members name _ Hn).
  rewrite (install_header_members name h _ Hn), in_map_iff.
  apply check_name_desired in Hn. destruct Hn as [Hd _].
  split.
  - intros [_ [c [E Hc]]]. now exists c.
  - intros [c [Hc E]]. split; [assumption|]. now exists c.
Qed.

Lemma data_column_kept_iff_in_header_witness :
  In "Payee"%string (columns scenario_output)
  <-> exists c, In c (nth 2 (remove_top 0 titled_scenario) []) /\
                clean_column_name c = "Payee"%string.
Proof.
  apply (data_column_kept_iff_in_header titled_scenario 0 0 2).
  - reflexivity.
  - reflexivity.
  - simpl. tauto.
Defined.

(** ** The page after "Process Data" *)

(** X14: a click on "Process Data" ends in exactly one of two pages.  When a
    row of the scan window mentions "Verified": the preview of the cleaned
    table followed by one download button, holding the serialised table under
    the name "cleaned_card_data.csv", and no error.  Otherwise: the header
    error alone, with no preview and no download button. *)
Theorem page_after_click (to_csv : DataFrame -> string) (df : RawTable)
    (top bottom : nat) :
  ((exists i, i < Nat.min 10 (length (remove_top top df)) /\
              mentions_verified (nth i (remove_top top df) [])) /\
   exists out,
     process_card_data df top bottom = Ok out /\
     process_data_clicked to_csv df top bottom
     = [ st_spinner "Processing data...";
         st_write "### Cleaned Data Preview:";
         st_dataframe out;
         st_download_button "Download Cleaned CSV" (to_csv out)
                            "cleaned_card_data.csv" "text/csv" ])
  \/
  ((forall i, i < Nat.min 10 (length (remove_top top df)) ->
              ~ mentions_verified (nth i (remove_top top df) [])) /\
   process_data_clicked to_csv df top bottom
   = [ st_spinner "Processing data..."; st_error HeaderNotFound ]).
Proof.
  unfold process_data_clicked, process_card_data_reporting.
  destruct (verified_header_index (remove_top top df)) as [h|] eqn:Eh.
  - left. split.
    + exists h. now apply header_row_mentions.
    + destruct (process_card_data_ok df top bottom h Eh) as [df9 [_ [_ Hp]]].
      exists (finish bottom df9). split; [assumption|]. now rewrite Hp.
  - right. split.
    + intros i Hi Hm.
      destruct (header_found (remove_top top df)) as [h [Hh _]];
        [now exists i | congruence].
    + unfold process_card_data. now rewrite Eh.
Qed.

(** ** A selected identifier column that is lost *)

(** C5 does not hold on the code: in this report step 8 selects the blank
    column, whose cells are [null, "12", null, "34"]; the pass of line 67
    would turn them into [null, "12", "12", "34"], but the header also has a
    column named "CardHolderName", so the rename of line 60 and the drop of
    lines 61-63 remove the selected column with it, step 9 does not run, and
    the result has no "Card No." column. *)
Theorem selected_identifier_is_dropped :
  chosen_col (install_header 0 clash_report) = Some "CardHolderName1"%string /\
  series "CardHolderName1" (install_header 0 clash_report)
  = [NaN; Str "12"; NaN; Str "34"] /\
  card_no_series (series "CardHolderName1" (install_header 0 clash_report))
  = [NaN; Str "12"; Str "12"; Str "34"] /\
  process_card_data clash_report 0 0
  = Ok (mkDF ["Verified"] [ [Str "Y"]; [Str "Y"]; [Str "Y"]; [Str "Y"] ]) /\
  has_column "Card No."
    (columns (mkDF ["Verified"] [ [Str "Y"]; [Str "Y"]; [Str "Y"]; [Str "Y"] ]))
  = false.
Proof.
  split; [|split; [|split; [|split]]]; reflexivity.
Qed.
